(** * VRM pose importer: a shallow embedding of [scripts/blender_import_vrm_pose.py]

    The script reads a parsed JSON pose document and writes bone rotations
    into a named armature of the host scene.  The embedding has three layers:

    - [pyval]: the Python values [json.load] can produce, with the handful
      of Python operations the script performs on them (truthiness, [len],
      indexing, [dict.get], conversion to a C double);
    - [World]: the part of the host state the script reads or writes
      ([bpy.data.objects], the active object, the interaction mode, the
      number of view-layer refreshes, and what was printed);
    - [Py A]: computations over [World] that return an [A] or raise.

    Numbers are binary64 floats and unbounded integers, as in Python.  The
    host stores rotations in its own precision; the model records the value
    the script hands to the host property. *)

From Stdlib Require Import ZArith Floats.PrimFloat Floats.SpecFloat Floats.FloatOps.
From stdpp Require Import gmap strings list.

(** ** Python values *)

#[warnings="-register-all"]
Inductive pyval : Type :=
  | PyNone
  | PyBool (b : bool)
  | PyInt (n : Z)
  | PyFloat (f : float)
  | PyStr (s : string)              (* one character per code point *)
  | PyList (items : list pyval)
  | PyDict (items : list (string * pyval)).

Inductive exn : Type :=
  | AttributeError
  | TypeError
  | KeyError
  | IndexError
  | OverflowError.

Inductive result (A : Type) : Type :=
  | Ok (a : A)
  | Raise (e : exn).
Arguments Ok {A} a.
Arguments Raise {A} e.

(** A [dict] keeps its items in insertion order; lookup returns the value of
    the first item with the key (keys of a Python dict are unique). *)
Fixpoint dict_get {V : Type} (d : list (string * V)) (key : string) : option V :=
  match d with
  | [] => None
  | (k, v) :: rest => if String.eqb k key then Some v else dict_get rest key
  end.

(** [bool(v)], as used by [not v]. *)
Definition truthy (v : pyval) : bool :=
  match v with
  | PyNone => false
  | PyBool b => b
  | PyInt n => negb (n =? 0)%Z
  | PyFloat f => negb (f =? 0)%float
  | PyStr s => negb (String.eqb s "")
  | PyList items => match items with [] => false | _ => true end
  | PyDict items => match items with [] => false | _ => true end
  end.

(** [len(v)]: defined on strings, lists and dicts only. *)
Definition py_len (v : pyval) : result nat :=
  match v with
  | PyStr s => Ok (String.length s)
  | PyList items => Ok (length items)
  | PyDict items => Ok (length items)
  | _ => Raise TypeError
  end.

(** [v[i]] for a literal index [i >= 0].  The keys of a parsed JSON object
    are strings, so an integer subscript of a dict is a [KeyError]. *)
Definition py_getitem (v : pyval) (i : nat) : result pyval :=
  match v with
  | PyList items =>
      match items !! i with Some a => Ok a | None => Raise IndexError end
  | PyStr s =>
      match String.get i s with
      | Some c => Ok (PyStr (String c EmptyString))
      | None => Raise IndexError
      end
  | PyDict _ => Raise KeyError
  | _ => Raise TypeError
  end.

(** [v.get(key, default)]: only a dict has the method. *)
Definition py_get (v : pyval) (key : string) (default : pyval) : result pyval :=
  match v with
  | PyDict items =>
      Ok (match dict_get items key with Some a => a | None => default end)
  | _ => Raise AttributeError
  end.

(** ** Floats *)

(** [float(n)] for an integer: round to nearest even, [OverflowError] when
    the integer is out of the binary64 range. *)
Definition float_of_Z (n : Z) : float :=
  SF2Prim (binary_normalize 53 1024 n 0 false).

(** Conversion of an argument to a C double, as the [math] module and the
    [mathutils] constructors do it: floats, integers and booleans convert,
    anything else is refused.  (The host constructor reports every refusal
    as a [TypeError]; which class is raised plays no role below.) *)
Definition as_double (v : pyval) : result float :=
  match v with
  | PyFloat f => Ok f
  | PyInt n =>
      let f := float_of_Z n in
      if is_infinity f then Raise OverflowError else Ok f
  | PyBool b => Ok (if b then 1%float else 0%float)
  | _ => Raise TypeError
  end.

(** [math.pi], and [math.radians(x) = x * (pi / 180.0)]. *)
Definition pi : float := 0x1.921fb54442d18p+1%float.
Definition degToRad : float := (pi / 180)%float.

Definition radians (v : pyval) : result float :=
  match as_double v with
  | Ok f => Ok (f * degToRad)%float
  | Raise e => Raise e
  end.

(** ** Host values *)

(** [mathutils.Quaternion((w, x, y, z))]: components in the order (w, x, y, z). *)
Record Quaternion : Type := mkQuaternion {
  qw : float; qx : float; qy : float; qz : float
}.

(** [mathutils.Euler((x, y, z), order)]. *)
Record Euler : Type := mkEuler {
  ex : float; ey : float; ez : float; order : string
}.

(** The constructor converts each component to a double, in argument order. *)
Definition make_Quaternion (a b c d : pyval) : result Quaternion :=
  match as_double a with
  | Raise e => Raise e
  | Ok w =>
      match as_double b with
      | Raise e => Raise e
      | Ok x =>
          match as_double c with
          | Raise e => Raise e
          | Ok y =>
              match as_double d with
              | Raise e => Raise e
              | Ok z => Ok (mkQuaternion w x y z)
              end
          end
      end
  end.

Record PoseBone : Type := mkPoseBone {
  rotation_quaternion : Quaternion
}.

(** A scene object: its [type], its [rotation_euler], and [pose.bones]
    keyed by bone name. *)
Record Object : Type := mkObject {
  type : string;
  rotation_euler : Euler;
  bones : gmap string PoseBone
}.

(** One constructor per [print] call of the script, carrying the values
    interpolated into the text. *)
Inductive message : Type :=
  | ErrArmatureNotFound (armature_name : string)
  | ErrNotAnArmature (armature_name : string)
  | ErrNoVrmPose
  | WarnNoMapping (vrm_bone_name : string)
  | WarnBoneNotFound (blender_bone_name : string)
  | InfoApplied (applied_count : nat)
  | InfoSkipped (skipped_count : nat)
  | InfoSceneRotation (x y z : pyval)
  | Banner
  | Title
  | InfoLoading (path : string)
  | InfoLoaded
  | ErrLoading (e : exn)
  | InfoApplyingSceneRotation
  | InfoApplyingPose (armature_name : string)
  | InfoSuccess
  | NextStepsHeader
  | NextStep (n : nat)
  | ErrFailed
  | TroubleshootingHeader
  | TroubleshootingHint (n : nat).

(** The host state seen by the script. *)
Record World : Type := mkWorld {
  objects : gmap string Object;      (* bpy.data.objects *)
  active : option string;            (* bpy.context.view_layer.objects.active *)
  mode : string;                     (* interaction mode *)
  view_updates : nat;                (* calls of bpy.context.view_layer.update() *)
  stdout : list message              (* printed lines, oldest first *)
}.

(** ** Computations *)

Definition Py (A : Type) : Type := World → result A * World.

Definition ret {A} (a : A) : Py A := λ w, (Ok a, w).

Definition bind {A B} (m : Py A) (k : A → Py B) : Py B :=
  λ w, match m w with
       | (Ok a, w') => k a w'
       | (Raise e, w') => (Raise e, w')
       end.

(** Lift a pure Python operation that may raise. *)
Definition lift {A} (r : result A) : Py A := λ w, (r, w).

Notation "'do' x <- m ; k" := (bind m (λ x, k))
  (at level 10, x name, m at level 100, k at level 200).
Notation "m ;; k" := (bind m (λ _, k))
  (at level 100, k at level 200, right associativity).

(** World updates, one per host operation the script performs. *)

Definition printed (m : message) (w : World) : World :=
  mkWorld (objects w) (active w) (mode w) (view_updates w) (stdout w ++ [m]).

Definition activated (name : string) (w : World) : World :=
  mkWorld (objects w) (Some name) (mode w) (view_updates w) (stdout w).

Definition in_mode (m : string) (w : World) : World :=
  mkWorld (objects w) (active w) m (view_updates w) (stdout w).

Definition refreshed (w : World) : World :=
  mkWorld (objects w) (active w) (mode w) (S (view_updates w)) (stdout w).

Definition with_bone (bone : string) (q : Quaternion) (obj : Object) : Object :=
  mkObject (type obj) (rotation_euler obj) (<[bone := mkPoseBone q]> (bones obj)).

Definition with_euler (e : Euler) (obj : Object) : Object :=
  mkObject (type obj) e (bones obj).

Definition with_objects (objs : gmap string Object) (w : World) : World :=
  mkWorld objs (active w) (mode w) (view_updates w) (stdout w).

Definition print (m : message) : Py unit := λ w, (Ok tt, printed m w).

(** [bpy.data.objects.get(name)] *)
Definition objects_get (name : string) : Py (option Object) :=
  λ w, (Ok (objects w !! name), w).

(** [bpy.context.view_layer.objects.active = obj] *)
Definition set_active (name : string) : Py unit := λ w, (Ok tt, activated name w).

(** [bpy.ops.object.mode_set(mode=m)]; the host operators are taken to
    succeed on an object found in the scene. *)
Definition mode_set (m : string) : Py unit := λ w, (Ok tt, in_mode m w).

(** [bpy.context.view_layer.update()] *)
Definition view_layer_update : Py unit := λ w, (Ok tt, refreshed w).

(** [armature_obj.pose.bones.get(bone)], read through the scene: the object
    handle is a reference into [bpy.data.objects]. *)
Definition bone_lookup (w : World) (armature_name bone : string)
  : option PoseBone :=
  match objects w !! armature_name with
  | Some obj => bones obj !! bone
  | None => None
  end.

Definition pose_bones_get (armature_name bone : string) : Py (option PoseBone) :=
  λ w, (Ok (bone_lookup w armature_name bone), w).

(** [pose_bone.rotation_quaternion = q] *)
Definition set_rotation_quaternion (armature_name bone : string) (q : Quaternion)
  : Py unit :=
  λ w, (Ok tt, with_objects (alter (with_bone bone q) armature_name (objects w)) w).

(** [obj.rotation_euler = e] *)
Definition set_rotation_euler (name : string) (e : Euler) : Py unit :=
  λ w, (Ok tt, with_objects (alter (with_euler e) name (objects w)) w).

(** ** Configuration and the bone-name table *)

Definition JSON_PATH : string := "C:/path/to/your/pose.json".
Definition ARMATURE_NAME : string := "Armature".

(** The sections of the dict literal, in source order. *)
Definition core_bones : list (string * string) :=
  [ ("hips", "Hips"); ("spine", "Spine"); ("chest", "Chest");
    ("upperChest", "UpperChest"); ("neck", "Neck"); ("head", "Head") ].

Definition left_arm_bones : list (string * string) :=
  [ ("leftShoulder", "LeftShoulder"); ("leftUpperArm", "LeftUpperArm");
    ("leftLowerArm", "LeftLowerArm"); ("leftHand", "LeftHand") ].

Definition right_arm_bones : list (string * string) :=
  [ ("rightShoulder", "RightShoulder"); ("rightUpperArm", "RightUpperArm");
    ("rightLowerArm", "RightLowerArm"); ("rightHand", "RightHand") ].

Definition left_leg_bones : list (string * string) :=
  [ ("leftUpperLeg", "LeftUpperLeg"); ("leftLowerLeg", "LeftLowerLeg");
    ("leftFoot", "LeftFoot"); ("leftToes", "LeftToes") ].

Definition right_leg_bones : list (string * string) :=
  [ ("rightUpperLeg", "RightUpperLeg"); ("rightLowerLeg", "RightLowerLeg");
    ("rightFoot", "RightFoot"); ("rightToes", "RightToes") ].

Definition left_finger_bones : list (string * string) :=
  [ ("leftThumbProximal", "LeftThumbProximal");
    ("leftThumbIntermediate", "LeftThumbIntermediate");
    ("leftThumbDistal", "LeftThumbDistal");
    ("leftIndexProximal", "LeftIndexProximal");
    ("leftIndexIntermediate", "LeftIndexIntermediate");
    ("leftIndexDistal", "LeftIndexDistal");
    ("leftMiddleProximal", "LeftMiddleProximal");
    ("leftMiddleIntermediate", "LeftMiddleIntermediate");
    ("leftMiddleDistal", "LeftMiddleDistal");
    ("leftRingProximal", "LeftRingProximal");
    ("leftRingIntermediate", "LeftRingIntermediate");
    ("leftRingDistal", "LeftRingDistal");
    ("leftLittleProximal", "LeftLittleProximal");
    ("leftLittleIntermediate", "LeftLittleIntermediate");
    ("leftLittleDistal", "LeftLittleDistal") ].

Definition right_finger_bones : list (string * string) :=
  [ ("rightThumbProximal", "RightThumbProximal");
    ("rightThumbIntermediate", "RightThumbIntermediate");
    ("rightThumbDistal", "RightThumbDistal");
    ("rightIndexProximal", "RightIndexProximal");
    ("rightIndexIntermediate", "RightIndexIntermediate");
    ("rightIndexDistal", "RightIndexDistal");
    ("rightMiddleProximal", "RightMiddleProximal");
    ("rightMiddleIntermediate", "RightMiddleIntermediate");
    ("rightMiddleDistal", "RightMiddleDistal");
    ("rightRingProximal", "RightRingProximal");
    ("rightRingIntermediate", "RightRingIntermediate");
    ("rightRingDistal", "RightRingDistal");
    ("rightLittleProximal", "RightLittleProximal");
    ("rightLittleIntermediate", "RightLittleIntermediate");
    ("rightLittleDistal", "RightLittleDistal") ].

Definition limb_bones : list (string * string) :=
  left_arm_bones ++ right_arm_bones ++ left_leg_bones ++ right_leg_bones.

Definition finger_bones : list (string * string) :=
  left_finger_bones ++ right_finger_bones.

Definition VRM_TO_BLENDER_BONES : list (string * string) :=
  core_bones ++ limb_bones ++ finger_bones.

(** ** The script *)

(** The body of the [for] loop over [vrm_pose.items()].  The two counters
    are threaded through; [continue] ends the body with the counters as
    they stand. *)
Definition pose_entry (armature_name vrm_bone_name : string) (bone_data : pyval)
    (applied_count skipped_count : nat) : Py (nat * nat) :=
  match dict_get VRM_TO_BLENDER_BONES vrm_bone_name with
  | None =>
      print (WarnNoMapping vrm_bone_name) ;;
      ret (applied_count, S skipped_count)
  | Some blender_bone_name =>
      if String.eqb blender_bone_name "" then
        print (WarnNoMapping vrm_bone_name) ;;
        ret (applied_count, S skipped_count)
      else
        do pose_bone <- pose_bones_get armature_name blender_bone_name;
        match pose_bone with
        | None =>
            print (WarnBoneNotFound blender_bone_name) ;;
            ret (applied_count, S skipped_count)
        | Some _ =>
            do rotation <- lift (py_get bone_data "rotation" PyNone);
            if negb (truthy rotation) then ret (applied_count, skipped_count)
            else
              do n <- lift (py_len rotation);
              if negb (n =? 4) then ret (applied_count, skipped_count)
              else
                do r3 <- lift (py_getitem rotation 3);
                do r0 <- lift (py_getitem rotation 0);
                do r1 <- lift (py_getitem rotation 1);
                do r2 <- lift (py_getitem rotation 2);
                do quat <- lift (make_Quaternion r3 r0 r1 r2);
                set_rotation_quaternion armature_name blender_bone_name quat ;;
                ret (S applied_count, skipped_count)
        end
  end.

(** The loop itself, in document order; an exception ends it. *)
Fixpoint pose_loop (armature_name : string) (entries : list (string * pyval))
    (applied_count skipped_count : nat) : Py (nat * nat) :=
  match entries with
  | [] => ret (applied_count, skipped_count)
  | (vrm_bone_name, bone_data) :: rest =>
      do counts <- pose_entry armature_name vrm_bone_name bone_data
                     applied_count skipped_count;
      pose_loop armature_name rest counts.1 counts.2
  end.

(** [vrm_pose.items()]: only a dict has the method. *)
Definition py_items (v : pyval) : result (list (string * pyval)) :=
  match v with
  | PyDict items => Ok items
  | _ => Raise AttributeError
  end.

Definition apply_vrm_pose_to_armature (armature_name : string) (pose_data : pyval)
  : Py bool :=
  do armature_obj <- objects_get armature_name;
  match armature_obj with
  | None => print (ErrArmatureNotFound armature_name) ;; ret false
  | Some obj =>
      if negb (String.eqb (type obj) "ARMATURE") then
        print (ErrNotAnArmature armature_name) ;; ret false
      else
        set_active armature_name ;;
        mode_set "POSE" ;;
        do vrm_pose <- lift (py_get pose_data "vrmPose" (PyDict []));
        if negb (truthy vrm_pose) then
          print ErrNoVrmPose ;; ret false
        else
          do entries <- lift (py_items vrm_pose);
          do counts <- pose_loop armature_name entries 0 0;
          print (InfoApplied counts.1) ;;
          print (InfoSkipped counts.2) ;;
          view_layer_update ;;
          ret true
  end.

Definition apply_scene_rotation (pose_data : pyval) : Py unit :=
  do scene_rotation <- lift (py_get pose_data "sceneRotation" (PyDict []));
  if negb (truthy scene_rotation) then ret tt
  else
    do armature_obj <- objects_get ARMATURE_NAME;
    match armature_obj with
    | None => ret tt
    | Some _ =>
        do gx <- lift (py_get scene_rotation "x" (PyInt 0));
        do x <- lift (radians gx);
        do gy <- lift (py_get scene_rotation "y" (PyInt 0));
        do y <- lift (radians gy);
        do gz <- lift (py_get scene_rotation "z" (PyInt 0));
        do z <- lift (radians gz);
        set_rotation_euler ARMATURE_NAME (mkEuler x y z "XYZ") ;;
        do px <- lift (py_get scene_rotation "x" (PyInt 0));
        do py <- lift (py_get scene_rotation "y" (PyInt 0));
        do pz <- lift (py_get scene_rotation "z" (PyInt 0));
        print (InfoSceneRotation px py pz)
    end.

(** [main], given the outcome of [load_vrm_pose_json(JSON_PATH)]: the file
    system and the JSON parser are outside the model.  Only the load is
    inside the [try]; an exception raised later propagates. *)
Definition main (loaded : result pyval) : Py unit :=
  print Banner ;;
  print Title ;;
  print Banner ;;
  print (InfoLoading JSON_PATH) ;;
  match loaded with
  | Raise e => print (ErrLoading e)
  | Ok pose_data =>
      print InfoLoaded ;;
      print InfoApplyingSceneRotation ;;
      apply_scene_rotation pose_data ;;
      print (InfoApplyingPose ARMATURE_NAME) ;;
      do success <- apply_vrm_pose_to_armature ARMATURE_NAME pose_data;
      (if success then
         print InfoSuccess ;;
         print NextStepsHeader ;;
         print (NextStep 1) ;; print (NextStep 2) ;; print (NextStep 3)
       else
         print ErrFailed ;;
         print TroubleshootingHeader ;;
         print (TroubleshootingHint 1) ;;
         print (TroubleshootingHint 2) ;;
         print (TroubleshootingHint 3)) ;;
      print Banner
  end.

(** ** Reference description of the finger entries

    Three segments for each of five fingers on each of two hands; the
    canonical name starts in lower case, the rig name in upper case. *)

Definition hand_sides : list (string * string) :=
  [ ("left", "Left"); ("right", "Right") ].
Definition finger_names : list string :=
  [ "Thumb"; "Index"; "Middle"; "Ring"; "Little" ].
Definition segment_names : list string :=
  [ "Proximal"; "Intermediate"; "Distal" ].

Definition finger_segments_spec : list (string * string) :=
  side ← hand_sides;
  finger ← finger_names;
  segment ← segment_names;
  [ (side.1 +:+ finger +:+ segment, side.2 +:+ finger +:+ segment) ].

(** The world after printing several lines in turn. *)
Definition printed_lines (ms : list message) (w : World) : World :=
  foldl (λ w' m, printed m w') w ms.

(** ** Sample scenes and documents *)

Definition identity_quaternion : Quaternion := mkQuaternion 1 0 0 0.

(** A rig with two bones at rest, standing upright. *)
Definition sample_rig : Object :=
  mkObject "ARMATURE" (mkEuler 0 0 0 "XYZ")
    (<["Hips" := mkPoseBone identity_quaternion]>
       {["Spine" := mkPoseBone identity_quaternion]}).

Definition sample_world : World :=
  mkWorld {["Armature" := sample_rig]} None "OBJECT" 0 [].

Definition empty_world : World := mkWorld ∅ None "OBJECT" 0 [].

(** A scene where the configured name is taken by a mesh. *)
Definition mesh_world : World :=
  mkWorld {["Armature" := mkObject "MESH" (mkEuler 0 0 0 "XYZ") ∅]}
          None "OBJECT" 0 [].

Definition half_turn_about_x : pyval :=
  PyDict [("rotation", PyList [PyFloat 1; PyFloat 0; PyFloat 0; PyFloat 0])].

Definition rotation_at_rest : pyval :=
  PyDict [("rotation", PyList [PyInt 0; PyInt 0; PyInt 0; PyInt 1])].

(** A document with an unknown bone, two known ones, and a scene rotation. *)
Definition sample_pose : pyval :=
  PyDict
    [ ("vrmPose",
       PyDict [ ("tail", rotation_at_rest);
                ("hips", half_turn_about_x);
                ("spine", rotation_at_rest) ]);
      ("sceneRotation",
       PyDict [("x", PyInt 90); ("y", PyInt 0); ("z", PyInt 0)]) ].

(** ** What the loop body decides for an entry

    The five ways the body of the loop can end, and the function that tells
    which one it is: a summary of [pose_entry] used to state properties of
    whole runs.  [pose_entry_by_verdict] below relates the two. *)

Inductive verdict : Type :=
  | Unmapped                                  (* warning, skipped + 1 *)
  | MissingBone (blender_bone_name : string)  (* warning, skipped + 1 *)
  | Ignored                                   (* nothing *)
  | Written (blender_bone_name : string) (quat : Quaternion)  (* applied + 1 *)
  | Failed (e : exn).                         (* exception *)

(** The part of the body that looks at the rotation only. *)
Definition rotation_verdict (blender_bone_name : string) (bone_data : pyval)
  : verdict :=
  match py_get bone_data "rotation" PyNone with
  | Raise e => Failed e
  | Ok rotation =>
      if negb (truthy rotation) then Ignored
      else
        match py_len rotation with
        | Raise e => Failed e
        | Ok n =>
            if negb (n =? 4) then Ignored
            else
              match py_getitem rotation 3 with
              | Raise e => Failed e
              | Ok r3 =>
              match py_getitem rotation 0 with
              | Raise e => Failed e
              | Ok r0 =>
              match py_getitem rotation 1 with
              | Raise e => Failed e
              | Ok r1 =>
              match py_getitem rotation 2 with
              | Raise e => Failed e
              | Ok r2 =>
              match make_Quaternion r3 r0 r1 r2 with
              | Raise e => Failed e
              | Ok quat => Written blender_bone_name quat
              end end end end end
        end
  end.

Definition entry_verdict (w : World) (armature_name vrm_bone_name : string)
    (bone_data : pyval) : verdict :=
  match dict_get VRM_TO_BLENDER_BONES vrm_bone_name with
  | None => Unmapped
  | Some blender_bone_name =>
      if String.eqb blender_bone_name "" then Unmapped
      else
        match bone_lookup w armature_name blender_bone_name with
        | None => MissingBone blender_bone_name
        | Some _ => rotation_verdict blender_bone_name bone_data
        end
  end.

Definition is_warning (m : message) : bool :=
  match m with
  | WarnNoMapping _ | WarnBoneNotFound _ => true
  | _ => false
  end.

(** A second sample document: one bone, no scene rotation. *)
Definition hips_only_pose : pyval :=
  PyDict [("vrmPose", PyDict [("hips", half_turn_about_x)])].

(** More sample documents. *)
Definition sample_entries : list (string * pyval) :=
  [ ("tail", rotation_at_rest);
    ("hips", half_turn_about_x);
    ("spine", rotation_at_rest) ].

Definition reversed_pose : pyval :=
  PyDict [("vrmPose", PyDict (reverse sample_entries))].

Definition empty_section_pose : pyval := PyDict [("vrmPose", PyDict [])].

Definition array_section_pose : pyval :=
  PyDict [("vrmPose", PyList [half_turn_about_x])].

Definition worded_rotation_pose : pyval :=
  PyDict [("sceneRotation", PyDict [("x", PyStr "ninety")])].

Definition axisless_rotation_pose : pyval :=
  PyDict [("sceneRotation", PyDict [("w", PyInt 1)])].

(** A rig that has been turned and posed already. *)
Definition turned_world : World :=
  mkWorld
    {["Armature" :=
        mkObject "ARMATURE" (mkEuler 1 2 3 "XYZ")
          {["Hips" := mkPoseBone (mkQuaternion 0 0 1 0)]}]}
    None "OBJECT" 0 [].

(** The naming convention of the table: a rig name is the canonical name
    with its first letter in upper case. *)
Definition capitalize (s : string) : string :=
  match s with
  | EmptyString => EmptyString
  | String c rest =>
      let n := Ascii.N_of_ascii c in
      String (if (97 <=? n)%N && (n <=? 122)%N
              then Ascii.ascii_of_N (n - 32) else c) rest
  end.

(** A document that uses the rig's names where canonical names belong. *)
Definition rig_named_entries : list (string * pyval) :=
  [ ("Hips", half_turn_about_x); ("Spine", half_turn_about_x) ].

Definition rig_named_pose : pyval :=
  PyDict [("vrmPose", PyDict rig_named_entries)].

(** A document whose second entry gives the rotation bare, without the
    enclosing object. *)
Definition bare_entries : list (string * pyval) :=
  [ ("hips", half_turn_about_x);
    ("spine", PyList [PyInt 0; PyInt 0; PyInt 0; PyInt 1]);
    ("head", half_turn_about_x) ].

Definition bare_pose : pyval := PyDict [("vrmPose", PyDict bare_entries)].

Definition two_bone_pose : pyval :=
  PyDict [("vrmPose",
           PyDict [("hips", half_turn_about_x); ("spine", rotation_at_rest)])].

(** [rotations_only name w w']: from [w] to [w'] nothing but rotations of
    bones of the object [name] may have changed (printed lines aside): the
    same objects with the same types, Euler rotations and bone names, the
    other objects untouched, the same active object, mode and refresh
    count. *)
Definition rotations_only (name : string) (w w' : World) : Prop :=
  active w' = active w ∧ mode w' = mode w ∧
  view_updates w' = view_updates w ∧
  (∀ n, n ≠ name → objects w' !! n = objects w !! n) ∧
  (∀ n, type <$> objects w' !! n = type <$> objects w !! n) ∧
  (∀ n, rotation_euler <$> objects w' !! n
        = rotation_euler <$> objects w !! n) ∧
  (∀ n, (λ obj, dom (bones obj)) <$> objects w' !! n
        =@{option (gset string)} (λ obj, dom (bones obj)) <$> objects w !! n).

(** * Properties of the bone-name table *)

Section dict_facts.
Context {V : Type}.
Implicit Types (d : list (string * V)) (k : string) (v : V).

Lemma dict_get_elem_of d k v : dict_get d k = Some v → (k, v) ∈ d.
Proof.
  induction d as [|[k' v'] d IH]; simpl; [done|].
  destruct (String.eqb_spec k' k) as [->|_].
  - intros [= ->]. left.
  - intros H. right. auto.
Qed.

Lemma dict_get_values_inj d k1 k2 v :
  NoDup d.*2 → dict_get d k1 = Some v → dict_get d k2 = Some v → k1 = k2.
Proof.
  induction d as [|[k' v'] d IH]; simpl; [done|].
  intros [Hnotin Hnd]%NoDup_cons.
  destruct (String.eqb_spec k' k1) as [E1|_], (String.eqb_spec k' k2) as [E2|_].
  - congruence.
  - intros [= ->] H2%dict_get_elem_of. destruct Hnotin.
    apply list_elem_of_fmap. by exists (k2, v).
  - intros H1%dict_get_elem_of [= ->]. destruct Hnotin.
    apply list_elem_of_fmap. by exists (k1, v).
  - by apply IH.
Qed.

Lemma dict_get_Forall (P : V → Prop) d k v :
  Forall (λ kv, P kv.2) d → dict_get d k = Some v → P v.
Proof.
  intros Hall H%dict_get_elem_of.
  by apply (proj1 (Forall_forall _ _) Hall (k, v)).
Qed.
End dict_facts.

Lemma bone_map_keys_NoDup : NoDup VRM_TO_BLENDER_BONES.*1.
Proof. apply (bool_decide_unpack _). by vm_compute. Qed.

Lemma bone_map_targets_NoDup : NoDup VRM_TO_BLENDER_BONES.*2.
Proof. apply (bool_decide_unpack _). by vm_compute. Qed.

Lemma bone_map_target_nonempty k b :
  dict_get VRM_TO_BLENDER_BONES k = Some b → b ≠ "".
Proof.
  apply (dict_get_Forall (λ b, b ≠ "")).
  apply (bool_decide_unpack _). by vm_compute.
Qed.

Lemma bone_map_injective k1 k2 b :
  dict_get VRM_TO_BLENDER_BONES k1 = Some b →
  dict_get VRM_TO_BLENDER_BONES k2 = Some b → k1 = k2.
Proof. apply dict_get_values_inj, bone_map_targets_NoDup. Qed.

(** C2 (as stated): the table would have 6 core, 8 limb and 30 finger
    entries, 44 in all.  It does not: the two arms and two legs have four
    entries each. *)
Lemma bone_map_not_44_entries :
  ¬ (length core_bones = 6 ∧ length limb_bones = 8 ∧
     length finger_bones = 30 ∧ length VRM_TO_BLENDER_BONES = 44).
Proof. intros (_ & Hlimb & _). vm_compute in Hlimb. discriminate. Qed.

(** C2 (amended): the table covers the core skeleton (6 entries), both arms
    and both legs (4 entries each, 16 limb entries) and the 30 finger
    segments, which are exactly the 3 segments x 5 fingers x 2 hands of the
    reference description; it has 52 entries with pairwise distinct
    canonical names.  The table is a constant of the script: no operation of
    the embedding takes it as state, the script only looks names up in it. *)
Theorem bone_map_coverage :
  length core_bones = 6 ∧
  length left_arm_bones = 4 ∧ length right_arm_bones = 4 ∧
  length left_leg_bones = 4 ∧ length right_leg_bones = 4 ∧
  length limb_bones = 16 ∧
  finger_bones = finger_segments_spec ∧ length finger_bones = 30 ∧
  VRM_TO_BLENDER_BONES = core_bones ++ limb_bones ++ finger_bones ∧
  length VRM_TO_BLENDER_BONES = 52 ∧
  NoDup VRM_TO_BLENDER_BONES.*1.
Proof.
  repeat split; try reflexivity.
  apply bone_map_keys_NoDup.
Qed.

(** C8: every canonical name of the table maps to a non-empty rig name, and
    no two distinct canonical names map to the same rig name. *)
Theorem bone_map_nonempty_injective :
  (∀ k b, dict_get VRM_TO_BLENDER_BONES k = Some b → b ≠ "") ∧
  (∀ k1 k2 b,
     dict_get VRM_TO_BLENDER_BONES k1 = Some b →
     dict_get VRM_TO_BLENDER_BONES k2 = Some b → k1 = k2).
Proof.
  split.
  - apply bone_map_target_nonempty.
  - apply bone_map_injective.
Qed.

Lemma bone_map_nonempty_injective_witness :
  dict_get VRM_TO_BLENDER_BONES "leftHand" = Some "LeftHand" ∧
  "LeftHand" ≠ "" ∧ "leftHand" = "leftHand".
Proof.
  split; [reflexivity|]. split.
  - apply (proj1 bone_map_nonempty_injective "leftHand" "LeftHand"). reflexivity.
  - apply (proj2 bone_map_nonempty_injective "leftHand" "leftHand" "LeftHand");
      reflexivity.
Defined.

(** * The pose loop, one entry at a time *)

Section pose_entry_cases.
Variables (armature_name : string) (applied_count skipped_count : nat) (w : World).
Implicit Types (k b : string) (d r : pyval).

Lemma pose_entry_unmapped k d :
  dict_get VRM_TO_BLENDER_BONES k = None →
  pose_entry armature_name k d applied_count skipped_count w
  = (Ok (applied_count, S skipped_count), printed (WarnNoMapping k) w).
Proof. intros Hk. unfold pose_entry. by rewrite Hk. Qed.

Lemma pose_entry_bone_missing k d b :
  dict_get VRM_TO_BLENDER_BONES k = Some b →
  bone_lookup w armature_name b = None →
  pose_entry armature_name k d applied_count skipped_count w
  = (Ok (applied_count, S skipped_count), printed (WarnBoneNotFound b) w).
Proof.
  intros Hk Hb. unfold pose_entry. rewrite Hk.
  apply bone_map_target_nonempty, String.eqb_neq in Hk as ->.
  unfold bind at 1, pose_bones_get. by rewrite Hb.
Qed.

(** Past the two name lookups, the entry is decided by its rotation field. *)
Lemma pose_entry_found k d b :
  dict_get VRM_TO_BLENDER_BONES k = Some b →
  is_Some (bone_lookup w armature_name b) →
  pose_entry armature_name k d applied_count skipped_count w
  = match py_get d "rotation" PyNone with
    | Raise e => (Raise e, w)
    | Ok r =>
        if negb (truthy r) then (Ok (applied_count, skipped_count), w)
        else
          match py_len r with
          | Raise e => (Raise e, w)
          | Ok n =>
              if negb (n =? 4) then (Ok (applied_count, skipped_count), w)
              else
                match py_getitem r 3, py_getitem r 0,
                      py_getitem r 1, py_getitem r 2 with
                | Ok r3, Ok r0, Ok r1, Ok r2 =>
                    match make_Quaternion r3 r0 r1 r2 with
                    | Ok quat =>
                        (Ok (S applied_count, skipped_count),
                         with_objects
                           (alter (with_bone b quat) armature_name (objects w))
                           w)
                    | Raise e => (Raise e, w)
                    end
                | Raise e, _, _, _
                | Ok _, Raise e, _, _
                | Ok _, Ok _, Raise e, _
                | Ok _, Ok _, Ok _, Raise e => (Raise e, w)
                end
          end
    end.
Proof.
  intros Hk [pb Hb]. unfold pose_entry. rewrite Hk.
  apply bone_map_target_nonempty, String.eqb_neq in Hk as ->.
  unfold bind at 1, pose_bones_get. rewrite Hb.
  unfold bind at 1, lift.
  destruct (py_get d "rotation" PyNone) as [r|e]; [|done].
  destruct (negb (truthy r)); [done|].
  unfold bind at 1. destruct (py_len r) as [n|e]; [|done].
  destruct (negb (n =? 4)); [done|].
  unfold bind at 1. destruct (py_getitem r 3) as [r3|e]; [|done].
  unfold bind at 1. destruct (py_getitem r 0) as [r0|e]; [|done].
  unfold bind at 1. destruct (py_getitem r 1) as [r1|e]; [|done].
  unfold bind at 1. destruct (py_getitem r 2) as [r2|e]; [|done].
  unfold bind at 1. destruct (make_Quaternion r3 r0 r1 r2) as [quat|e]; [|done].
  reflexivity.
Qed.

End pose_entry_cases.

Lemma pose_loop_cons armature_name k d rest a s w :
  pose_loop armature_name ((k, d) :: rest) a s w
  = match pose_entry armature_name k d a s w with
    | (Ok counts, w') => pose_loop armature_name rest counts.1 counts.2 w'
    | (Raise e, w') => (Raise e, w')
    end.
Proof. reflexivity. Qed.

Lemma pose_loop_app armature_name pre post a s w :
  pose_loop armature_name (pre ++ post) a s w
  = match pose_loop armature_name pre a s w with
    | (Ok counts, w') => pose_loop armature_name post counts.1 counts.2 w'
    | (Raise e, w') => (Raise e, w')
    end.
Proof.
  revert a s w. induction pre as [|[k d] pre IH]; intros a s w; [done|].
  rewrite <- app_comm_cons, !pose_loop_cons.
  destruct (pose_entry armature_name k d a s w) as [[counts|e] w']; [|done].
  apply IH.
Qed.

(** * What an entry can touch *)

Lemma bone_lookup_written w name b q :
  is_Some (objects w !! name) →
  bone_lookup (with_objects (alter (with_bone b q) name (objects w)) w) name b
  = Some (mkPoseBone q).
Proof.
  intros [obj Hobj]. unfold bone_lookup; simpl.
  rewrite lookup_alter_eq, Hobj. simpl. apply lookup_insert_eq.
Qed.

Lemma bone_lookup_written_other w name name' b b' q :
  b' ≠ b →
  bone_lookup (with_objects (alter (with_bone b q) name (objects w)) w) name' b'
  = bone_lookup w name' b'.
Proof.
  intros Hne. unfold bone_lookup; simpl.
  destruct (decide (name = name')) as [<-|Hname].
  - rewrite lookup_alter_eq. destruct (objects w !! name) as [obj|]; simpl; [|done].
    by apply lookup_insert_ne.
  - by rewrite lookup_alter_ne.
Qed.

(** An entry leaves every bone alone except the one its name maps to. *)
Lemma pose_entry_frame name k d a s w b' :
  dict_get VRM_TO_BLENDER_BONES k ≠ Some b' →
  bone_lookup (pose_entry name k d a s w).2 name b' = bone_lookup w name b'.
Proof.
  intros Hne.
  destruct (dict_get VRM_TO_BLENDER_BONES k) as [b|] eqn:Hk;
    [|by rewrite pose_entry_unmapped].
  destruct (bone_lookup w name b) as [pb|] eqn:Hb;
    [|by rewrite (pose_entry_bone_missing _ _ _ _ _ _ b)].
  rewrite (pose_entry_found _ _ _ _ _ _ b) by eauto.
  assert (b' ≠ b) by congruence.
  repeat case_match; simpl; try done.
  by apply bone_lookup_written_other.
Qed.

Lemma pose_loop_frame name entries a s w b' :
  (∀ k d, (k, d) ∈ entries → dict_get VRM_TO_BLENDER_BONES k ≠ Some b') →
  bone_lookup (pose_loop name entries a s w).2 name b' = bone_lookup w name b'.
Proof.
  revert a s w. induction entries as [|[k d] rest IH]; intros a s w Hall; [done|].
  rewrite pose_loop_cons.
  pose proof (pose_entry_frame name k d a s w b') as Hstep.
  destruct (pose_entry name k d a s w) as [[counts|e] w']; simpl in Hstep.
  - rewrite IH; [apply Hstep|]; set_solver.
  - apply Hstep. set_solver.
Qed.

(** A well-formed rotation: four numbers stored as [x, y, z, w]. *)
Lemma pose_entry_applied name k d a s w b jx jy jz jw x y z qw_ :
  dict_get VRM_TO_BLENDER_BONES k = Some b →
  is_Some (bone_lookup w name b) →
  py_get d "rotation" PyNone = Ok (PyList [jx; jy; jz; jw]) →
  as_double jx = Ok x → as_double jy = Ok y →
  as_double jz = Ok z → as_double jw = Ok qw_ →
  pose_entry name k d a s w
  = (Ok (S a, s),
     with_objects
       (alter (with_bone b (mkQuaternion qw_ x y z)) name (objects w)) w).
Proof.
  intros Hk Hb Hr Hx Hy Hz Hw.
  rewrite (pose_entry_found _ _ _ _ _ _ b), Hr by done. simpl.
  unfold make_Quaternion. by rewrite Hw, Hx, Hy, Hz.
Qed.

Lemma pose_loop_reaches_entry name pre k d post a0 s0 w0 a s b q :
  NoDup (pre ++ (k, d) :: post).*1 →
  dict_get VRM_TO_BLENDER_BONES k = Some b →
  is_Some (bone_lookup w0 name b) →
  (pose_loop name pre a0 s0 w0).1 = Ok (a, s) →
  (∀ w1, is_Some (bone_lookup w1 name b) →
     pose_entry name k d a s w1
     = (Ok (S a, s),
        with_objects (alter (with_bone b q) name (objects w1)) w1)) →
  bone_lookup (pose_loop name (pre ++ (k, d) :: post) a0 s0 w0).2 name b
  = Some (mkPoseBone q).
Proof.
  intros Hnd Hk Hb Hpre Hentry.
  rewrite fmap_app, fmap_cons in Hnd. simpl in Hnd.
  apply NoDup_app in Hnd as (_ & Hpre_k & [Hpost_k _]%NoDup_cons).
  assert (∀ l : list (string * pyval), k ∉ l.*1 →
          ∀ k' d', (k', d') ∈ l → dict_get VRM_TO_BLENDER_BONES k' ≠ Some b)
    as Hother.
  { intros l Hl k' d' Hin Hk'.
    assert (k' = k) as -> by eauto using bone_map_injective.
    apply Hl, list_elem_of_fmap. by exists (k, d'). }
  assert (k ∉ pre.*1) as Hpre_k'.
  { intros Hin. apply (Hpre_k k Hin). left. }
  rewrite pose_loop_app.
  pose proof (pose_loop_frame name pre a0 s0 w0 b (Hother _ Hpre_k')) as Hframe.
  destruct (pose_loop name pre a0 s0 w0) as [[counts|e] w1]; [|done].
  cbn [fst snd] in Hpre, Hframe. rewrite <- Hframe in Hb.
  assert (counts = (a, s)) as -> by congruence. cbn [fst snd].
  rewrite pose_loop_cons, (Hentry w1 Hb). cbn [fst snd].
  rewrite pose_loop_frame by eauto.
  apply bone_lookup_written.
  unfold bone_lookup in Hb. by destruct (objects w1 !! name).
Qed.

(** * The pose applier *)

Section apply_cases.
Variables (armature_name : string) (pose_data : pyval) (w : World).

Lemma apply_armature_not_found :
  objects w !! armature_name = None →
  apply_vrm_pose_to_armature armature_name pose_data w
  = (Ok false, printed (ErrArmatureNotFound armature_name) w).
Proof.
  intros Hobj. unfold apply_vrm_pose_to_armature, bind at 1, objects_get.
  by rewrite Hobj.
Qed.

Lemma apply_not_an_armature obj :
  objects w !! armature_name = Some obj →
  type obj ≠ "ARMATURE" →
  apply_vrm_pose_to_armature armature_name pose_data w
  = (Ok false, printed (ErrNotAnArmature armature_name) w).
Proof.
  intros Hobj Htype. unfold apply_vrm_pose_to_armature, bind at 1, objects_get.
  rewrite Hobj. by apply String.eqb_neq in Htype as ->.
Qed.

(** With the armature found, the rig is made active and put into pose mode
    before the document is looked at. *)
Lemma apply_armature_found obj :
  objects w !! armature_name = Some obj →
  type obj = "ARMATURE" →
  let w0 := in_mode "POSE" (activated armature_name w) in
  apply_vrm_pose_to_armature armature_name pose_data w
  = match py_get pose_data "vrmPose" (PyDict []) with
    | Raise e => (Raise e, w0)
    | Ok vrm_pose =>
        if truthy vrm_pose then
          match py_items vrm_pose with
          | Raise e => (Raise e, w0)
          | Ok entries =>
              match pose_loop armature_name entries 0 0 w0 with
              | (Ok counts, w') =>
                  (Ok true,
                   refreshed (printed (InfoSkipped counts.2)
                                (printed (InfoApplied counts.1) w')))
              | (Raise e, w') => (Raise e, w')
              end
          end
        else (Ok false, printed ErrNoVrmPose w0)
    end.
Proof.
  intros Hobj Htype w0. unfold apply_vrm_pose_to_armature, bind at 1, objects_get.
  rewrite Hobj, Htype, String.eqb_refl. cbn [negb].
  unfold bind at 1, set_active. unfold bind at 1, mode_set. fold w0.
  unfold bind at 1, lift.
  destruct (py_get pose_data "vrmPose" (PyDict [])) as [vrm_pose|e]; [|done].
  destruct (truthy vrm_pose); cbn [negb]; [|done].
  unfold bind at 1. destruct (py_items vrm_pose) as [entries|e]; [|done].
  unfold bind at 1.
  by destruct (pose_loop armature_name entries 0 0 w0) as [[counts|e] w'].
Qed.

End apply_cases.

(** C1: an entry with a mapped name, a bone present in the rig and a rotation
    stored as the four numbers [x, y, z, w] is applied: the entry sets the
    bone's rotation to the quaternion (w, x, y, z), counts one applied bone
    and no skipped one, and at the end of the run the bone holds exactly
    that quaternion, whatever rotation it had before. *)
Theorem applied_entry_overwrites_rotation
    name pose_data w obj pre k d post a s b jx jy jz jw x y z qw_ :
  let w0 := in_mode "POSE" (activated name w) in
  let w1 := (pose_loop name pre 0 0 w0).2 in
  let quat := mkQuaternion qw_ x y z in
  objects w !! name = Some obj →
  type obj = "ARMATURE" →
  py_get pose_data "vrmPose" (PyDict []) = Ok (PyDict (pre ++ (k, d) :: post)) →
  NoDup (pre ++ (k, d) :: post).*1 →
  (pose_loop name pre 0 0 w0).1 = Ok (a, s) →
  dict_get VRM_TO_BLENDER_BONES k = Some b →
  is_Some (bones obj !! b) →
  py_get d "rotation" PyNone = Ok (PyList [jx; jy; jz; jw]) →
  as_double jx = Ok x → as_double jy = Ok y →
  as_double jz = Ok z → as_double jw = Ok qw_ →
  pose_entry name k d a s w1
  = (Ok (S a, s),
     with_objects (alter (with_bone b quat) name (objects w1)) w1) ∧
  bone_lookup (apply_vrm_pose_to_armature name pose_data w).2 name b
  = Some (mkPoseBone quat).
Proof.
  intros w0 w1 quat Hobj Htype Hdoc Hnd Hpre Hk Hb Hr Hx Hy Hz Hw.
  assert (is_Some (bone_lookup w0 name b)) as Hb0.
  { unfold bone_lookup, w0. simpl. by rewrite Hobj. }
  assert (bone_lookup (pose_loop name (pre ++ (k, d) :: post) 0 0 w0).2 name b
          = Some (mkPoseBone quat)) as Hloop.
  { apply (pose_loop_reaches_entry _ _ _ _ _ _ _ _ a s); try done.
    intros w' Hb'. by apply (pose_entry_applied _ _ _ _ _ _ _ jx jy jz jw). }
  split.
  - apply (pose_entry_applied _ _ _ _ _ _ _ jx jy jz jw); try done.
    unfold w1. rewrite pose_loop_frame; [done|].
    intros k' d' Hin Hk'.
    assert (k' = k) as -> by eauto using bone_map_injective.
    rewrite fmap_app in Hnd. apply NoDup_app in Hnd as (_ & Hpre_k & _).
    apply (Hpre_k k); [|left]. apply list_elem_of_fmap. by exists (k, d').
  - rewrite (apply_armature_found _ _ _ obj), Hdoc by done.
    replace (truthy (PyDict (pre ++ (k, d) :: post))) with true
      by (by destruct pre).
    cbn [py_items]. fold w0.
    by destruct (pose_loop name (pre ++ (k, d) :: post) 0 0 w0)
      as [[counts|e] w2].
Qed.

(** C3 (amended): a mapped entry whose bone exists and whose rotation is
    absent, [null] or otherwise falsy, or is a sized value (array, string,
    object) of a length other than 4, changes nothing: the loop goes on with
    the remaining entries from the same world and the same two counters. *)
Theorem malformed_rotation_silently_skipped name k d rest a s w b r :
  dict_get VRM_TO_BLENDER_BONES k = Some b →
  is_Some (bone_lookup w name b) →
  py_get d "rotation" PyNone = Ok r →
  truthy r = false ∨ (∃ n, py_len r = Ok n ∧ n ≠ 4) →
  pose_loop name ((k, d) :: rest) a s w = pose_loop name rest a s w.
Proof.
  intros Hk Hb Hr Hbad.
  rewrite pose_loop_cons, (pose_entry_found _ _ _ _ _ _ b), Hr by done.
  destruct Hbad as [->|(n & -> & Hn)]; [done|].
  destruct (truthy r); [|done]. cbn [negb].
  by apply Nat.eqb_neq in Hn as ->.
Qed.

(** C5: an entry whose canonical name is not in the table, or whose mapped
    bone is not in the rig, prints its warning and adds one to the skipped
    count; the applied count and the scene objects are as before, and the
    loop goes on with the remaining entries. *)
Theorem unresolved_entry_counted_as_skipped name k d rest a s w :
  (dict_get VRM_TO_BLENDER_BONES k = None →
   pose_loop name ((k, d) :: rest) a s w
   = pose_loop name rest a (S s) (printed (WarnNoMapping k) w)) ∧
  (∀ b, dict_get VRM_TO_BLENDER_BONES k = Some b →
        bone_lookup w name b = None →
   pose_loop name ((k, d) :: rest) a s w
   = pose_loop name rest a (S s) (printed (WarnBoneNotFound b) w)) ∧
  (∀ m, objects (printed m w) = objects w).
Proof.
  split; [|split; [|done]].
  - intros Hk. by rewrite pose_loop_cons, pose_entry_unmapped.
  - intros b Hk Hb. by rewrite pose_loop_cons, (pose_entry_bone_missing _ _ _ _ _ _ b).
Qed.

(** C4: when the name resolves to no object, or to an object that is not an
    armature, the applier returns [False]; the scene objects (hence every
    bone rotation), the active object, the mode and the refresh count are
    as before the call. *)
Theorem missing_rig_fails_without_mutation name pose_data w :
  objects w !! name = None ∨
    (∃ obj, objects w !! name = Some obj ∧ type obj ≠ "ARMATURE") →
  let out := apply_vrm_pose_to_armature name pose_data w in
  out.1 = Ok false ∧
  objects out.2 = objects w ∧
  (∀ n b, bone_lookup out.2 n b = bone_lookup w n b) ∧
  active out.2 = active w ∧ mode out.2 = mode w ∧
  view_updates out.2 = view_updates w.
Proof.
  intros [Hnone|(obj & Hobj & Htype)] out; unfold out.
  - by rewrite apply_armature_not_found.
  - by rewrite (apply_not_an_armature _ _ _ obj).
Qed.

Section scene_rotation_cases.
Variables (pose_data : pyval) (w : World).

Lemma scene_rotation_absent doc :
  pose_data = PyDict doc →
  dict_get doc "sceneRotation" = None →
  apply_scene_rotation pose_data w = (Ok tt, w).
Proof.
  intros -> Hsr. unfold apply_scene_rotation, bind at 1, lift, py_get.
  by rewrite Hsr.
Qed.

Lemma scene_rotation_without_armature scene_rotation :
  py_get pose_data "sceneRotation" (PyDict []) = Ok scene_rotation →
  truthy scene_rotation = true →
  objects w !! ARMATURE_NAME = None →
  apply_scene_rotation pose_data w = (Ok tt, w).
Proof.
  intros Hsr Htrue Hobj. unfold apply_scene_rotation, bind at 1, lift.
  rewrite Hsr, Htrue. cbn [negb].
  unfold bind at 1, objects_get. by rewrite Hobj.
Qed.

Lemma scene_rotation_applied sr obj gx gy gz x y z :
  py_get pose_data "sceneRotation" (PyDict []) = Ok (PyDict sr) →
  sr ≠ [] →
  objects w !! ARMATURE_NAME = Some obj →
  py_get (PyDict sr) "x" (PyInt 0) = Ok gx → radians gx = Ok x →
  py_get (PyDict sr) "y" (PyInt 0) = Ok gy → radians gy = Ok y →
  py_get (PyDict sr) "z" (PyInt 0) = Ok gz → radians gz = Ok z →
  apply_scene_rotation pose_data w
  = (Ok tt,
     printed (InfoSceneRotation gx gy gz)
       (with_objects
          (alter (with_euler (mkEuler x y z "XYZ")) ARMATURE_NAME (objects w))
          w)).
Proof.
  intros Hsr Hne Hobj Hgx Hx Hgy Hy Hgz Hz.
  unfold apply_scene_rotation, bind at 1, lift.
  rewrite Hsr. replace (truthy (PyDict sr)) with true by (by destruct sr).
  cbn [negb]. unfold bind at 1, objects_get. rewrite Hobj.
  unfold bind at 1. rewrite Hgx. unfold bind at 1. rewrite Hx.
  unfold bind at 1. rewrite Hgy. unfold bind at 1. rewrite Hy.
  unfold bind at 1. rewrite Hgz. unfold bind at 1. rewrite Hz.
  reflexivity.
Qed.

End scene_rotation_cases.

Lemma alter_found {A} (f : A → A) (m : gmap string A) i x :
  m !! i = Some x → alter f i m = <[i := f x]> m.
Proof.
  intros Hi. apply map_eq; intros j. destruct (decide (i = j)) as [<-|Hne].
  - by rewrite lookup_alter_eq, lookup_insert_eq, Hi.
  - by rewrite lookup_alter_ne, lookup_insert_ne.
Qed.

(** * The scene rotation applier *)

(** C6: with a non-empty [sceneRotation] whose x, y, z (0 when missing) are
    numbers, and the armature object in the scene, the object's Euler
    rotation becomes the three values converted to radians, in order XYZ,
    whatever it was before; [{x: 90, y: 0, z: 0}] gives (pi/2, 0, 0); and
    without the [sceneRotation] key the world is left as it was. *)
Theorem scene_rotation_sets_euler_in_radians :
  (∀ pose_data w sr obj gx gy gz x y z,
     py_get pose_data "sceneRotation" (PyDict []) = Ok (PyDict sr) →
     sr ≠ [] →
     objects w !! ARMATURE_NAME = Some obj →
     py_get (PyDict sr) "x" (PyInt 0) = Ok gx → as_double gx = Ok x →
     py_get (PyDict sr) "y" (PyInt 0) = Ok gy → as_double gy = Ok y →
     py_get (PyDict sr) "z" (PyInt 0) = Ok gz → as_double gz = Ok z →
     let e := mkEuler (x * (pi / 180)) (y * (pi / 180)) (z * (pi / 180)) "XYZ" in
     apply_scene_rotation pose_data w
     = (Ok tt,
        printed (InfoSceneRotation gx gy gz)
          (with_objects
             (<[ARMATURE_NAME := mkObject (type obj) e (bones obj)]> (objects w))
             w))) ∧
  (∀ w obj,
     objects w !! ARMATURE_NAME = Some obj →
     let doc := PyDict [("sceneRotation",
                  PyDict [("x", PyInt 90); ("y", PyInt 0); ("z", PyInt 0)])] in
     rotation_euler <$> objects (apply_scene_rotation doc w).2 !! ARMATURE_NAME
     = Some (mkEuler (pi / 2) 0 0 "XYZ")) ∧
  (∀ doc w,
     dict_get doc "sceneRotation" = None →
     apply_scene_rotation (PyDict doc) w = (Ok tt, w)).
Proof.
  split; [|split].
  - intros pose_data w sr obj gx gy gz x y z Hsr Hne Hobj Hgx Hx Hgy Hy Hgz Hz e.
    rewrite (scene_rotation_applied _ _ sr obj gx gy gz
               (x * degToRad) (y * degToRad) (z * degToRad));
      try done; try (unfold radians; by rewrite ?Hx, ?Hy, ?Hz).
    by rewrite (alter_found _ _ _ obj).
  - intros w obj Hobj doc.
    rewrite (scene_rotation_applied _ _
               [("x", PyInt 90); ("y", PyInt 0); ("z", PyInt 0)] obj
               (PyInt 90) (PyInt 0) (PyInt 0) (pi / 2) 0 0); try done.
    cbn [snd printed with_objects objects].
    by rewrite lookup_alter_eq, Hobj.
  - intros doc w Hsr. by apply (scene_rotation_absent _ _ doc).
Qed.

(** C7: a document without the [vrmPose] key makes the pose applier return
    [False] with the scene objects (hence every bone) as before; a document
    without the [sceneRotation] key makes the scene rotation applier return
    normally with the world, printed lines included, as before. *)
Theorem missing_sections doc :
  (dict_get doc "vrmPose" = None →
   ∀ name w,
     let out := apply_vrm_pose_to_armature name (PyDict doc) w in
     out.1 = Ok false ∧ objects out.2 = objects w ∧
     view_updates out.2 = view_updates w) ∧
  (dict_get doc "sceneRotation" = None →
   ∀ w, apply_scene_rotation (PyDict doc) w = (Ok tt, w)).
Proof.
  split.
  - intros Hpose name w out. unfold out.
    destruct (objects w !! name) as [obj|] eqn:Hobj;
      [|by rewrite apply_armature_not_found].
    destruct (decide (type obj = "ARMATURE")) as [Htype|Htype];
      [|by rewrite (apply_not_an_armature _ _ _ obj)].
    rewrite (apply_armature_found _ _ _ obj) by done.
    unfold py_get. by rewrite Hpose.
  - intros Hsr w. by apply (scene_rotation_absent _ _ doc).
Qed.

(** C9: with the armature found and no [vrmPose] key, the applier returns
    [False] after making the armature active and entering pose mode; apart
    from that and the printed error the world is as before: same objects,
    same refresh count. *)
Theorem missing_pose_after_mode_switch name doc w obj :
  objects w !! name = Some obj →
  type obj = "ARMATURE" →
  dict_get doc "vrmPose" = None →
  apply_vrm_pose_to_armature name (PyDict doc) w
  = (Ok false,
     mkWorld (objects w) (Some name) "POSE" (view_updates w)
             (stdout w ++ [ErrNoVrmPose])).
Proof.
  intros Hobj Htype Hpose.
  rewrite (apply_armature_found _ _ _ obj) by done.
  unfold py_get. by rewrite Hpose.
Qed.

(** * The run *)

(** C10: with a non-empty [sceneRotation] and no object of the configured
    name, the scene rotation applier returns normally and leaves the world,
    printed lines included, as it was; [main] then goes on to the pose
    applier, which is the one to report the missing armature. *)
Theorem scene_rotation_without_rig_is_silent pose_data scene_rotation w :
  py_get pose_data "sceneRotation" (PyDict []) = Ok scene_rotation →
  truthy scene_rotation = true →
  objects w !! ARMATURE_NAME = None →
  apply_scene_rotation pose_data w = (Ok tt, w) ∧
  main (Ok pose_data) w
  = (Ok tt,
     printed_lines
       [ Banner; Title; Banner; InfoLoading JSON_PATH; InfoLoaded;
         InfoApplyingSceneRotation;
         InfoApplyingPose ARMATURE_NAME; ErrArmatureNotFound ARMATURE_NAME;
         ErrFailed; TroubleshootingHeader; TroubleshootingHint 1;
         TroubleshootingHint 2; TroubleshootingHint 3; Banner ] w).
Proof.
  intros Hsr Htrue Hobj. split.
  - by apply (scene_rotation_without_armature _ _ scene_rotation).
  - unfold main. do 7 (unfold bind at 1; cbn [print]).
    rewrite (scene_rotation_without_armature _ _ scene_rotation) by done.
    unfold bind at 1; cbn [print]. unfold bind at 1.
    by rewrite apply_armature_not_found.
Qed.

(** * Worked examples *)

Lemma applied_entry_overwrites_rotation_witness :
  bone_lookup
    (apply_vrm_pose_to_armature "Armature" sample_pose sample_world).2
    "Armature" "Hips"
  = Some (mkPoseBone (mkQuaternion 0 1 0 0)).
Proof.
  refine (proj2 (applied_entry_overwrites_rotation
            "Armature" sample_pose sample_world sample_rig
            [("tail", rotation_at_rest)] "hips" half_turn_about_x
            [("spine", rotation_at_rest)] 0 1 "Hips"
            (PyFloat 1) (PyFloat 0) (PyFloat 0) (PyFloat 0) 1 0 0 0
            _ _ _ _ _ _ _ _ _ _ _ _)).
  - vm_compute; reflexivity.
  - reflexivity.
  - reflexivity.
  - apply (bool_decide_unpack _). vm_compute; reflexivity.
  - vm_compute; reflexivity.
  - reflexivity.
  - exists (mkPoseBone identity_quaternion). vm_compute; reflexivity.
  - reflexivity.
  - reflexivity.
  - reflexivity.
  - reflexivity.
  - reflexivity.
Defined.

(** C3 (as stated) fails for a rotation that is not an array: [len] of a
    number raises, the loop ends there and the next entry is never applied;
    skipping the entry would have applied it.  The same happens with four
    components that are not numbers, in the quaternion constructor. *)
Lemma unsized_rotation_raises :
  let bad := ("hips", PyDict [("rotation", PyInt 5)]) in
  let words := ("hips", PyDict [("rotation",
                   PyList [PyStr "a"; PyStr "b"; PyStr "c"; PyStr "d"])]) in
  let next := ("spine", half_turn_about_x) in
  dict_get VRM_TO_BLENDER_BONES "hips" = Some "Hips" ∧
  is_Some (bone_lookup sample_world "Armature" "Hips") ∧
  pose_loop "Armature" [bad; next] 0 0 sample_world
    = (Raise TypeError, sample_world) ∧
  pose_loop "Armature" [words; next] 0 0 sample_world
    = (Raise TypeError, sample_world) ∧
  (pose_loop "Armature" [next] 0 0 sample_world).1 = Ok (1, 0) ∧
  pose_loop "Armature" [bad; next] 0 0 sample_world
    ≠ pose_loop "Armature" [next] 0 0 sample_world.
Proof.
  intros bad words next.
  assert (pose_loop "Armature" [bad; next] 0 0 sample_world
          = (Raise TypeError, sample_world)) as Hbad by (vm_compute; reflexivity).
  assert ((pose_loop "Armature" [next] 0 0 sample_world).1 = Ok (1, 0))
    as Hnext by (vm_compute; reflexivity).
  split; [reflexivity|]. split.
  { exists (mkPoseBone identity_quaternion). vm_compute; reflexivity. }
  split; [exact Hbad|]. split; [vm_compute; reflexivity|].
  split; [exact Hnext|].
  intros Heq. rewrite Hbad in Heq. rewrite <- Heq in Hnext. discriminate.
Qed.

Lemma malformed_rotation_silently_skipped_witness :
  let short := PyDict [("rotation", PyList [PyInt 0; PyInt 0; PyInt 1])] in
  pose_loop "Armature" [("hips", short); ("spine", half_turn_about_x)] 0 0
    sample_world
  = pose_loop "Armature" [("spine", half_turn_about_x)] 0 0 sample_world.
Proof.
  intros short.
  apply (malformed_rotation_silently_skipped "Armature" "hips" short
           [("spine", half_turn_about_x)] 0 0 sample_world "Hips"
           (PyList [PyInt 0; PyInt 0; PyInt 1])).
  - reflexivity.
  - exists (mkPoseBone identity_quaternion). vm_compute; reflexivity.
  - reflexivity.
  - right. exists 3. split; [reflexivity | lia].
Defined.

Lemma unresolved_entry_counted_as_skipped_witness :
  pose_loop "Armature" [("tail", rotation_at_rest)] 0 0 sample_world
    = (Ok (0, 1), printed (WarnNoMapping "tail") sample_world) ∧
  pose_loop "Armature" [("leftHand", rotation_at_rest)] 0 0 sample_world
    = (Ok (0, 1), printed (WarnBoneNotFound "LeftHand") sample_world).
Proof.
  split.
  - apply (proj1 (unresolved_entry_counted_as_skipped
                    "Armature" "tail" rotation_at_rest [] 0 0 sample_world)).
    reflexivity.
  - apply (proj1 (proj2 (unresolved_entry_counted_as_skipped
                    "Armature" "leftHand" rotation_at_rest [] 0 0 sample_world))
             "LeftHand").
    + reflexivity.
    + vm_compute; reflexivity.
Defined.

Lemma missing_rig_fails_without_mutation_witness :
  (apply_vrm_pose_to_armature "Armature" sample_pose empty_world).1 = Ok false ∧
  (apply_vrm_pose_to_armature "Armature" sample_pose mesh_world).1 = Ok false.
Proof.
  split.
  - apply (missing_rig_fails_without_mutation "Armature" sample_pose empty_world).
    left. reflexivity.
  - apply (missing_rig_fails_without_mutation "Armature" sample_pose mesh_world).
    right. exists (mkObject "MESH" (mkEuler 0 0 0 "XYZ") ∅).
    split; [vm_compute; reflexivity | discriminate].
Defined.

Lemma scene_rotation_sets_euler_in_radians_witness :
  (apply_scene_rotation sample_pose sample_world).1 = Ok tt ∧
  rotation_euler <$>
    objects (apply_scene_rotation sample_pose sample_world).2 !! "Armature"
  = Some (mkEuler (pi / 2) 0 0 "XYZ").
Proof.
  rewrite (proj1 scene_rotation_sets_euler_in_radians
             sample_pose sample_world
             [("x", PyInt 90); ("y", PyInt 0); ("z", PyInt 0)] sample_rig
             (PyInt 90) (PyInt 0) (PyInt 0) 90%float 0%float 0%float);
    try reflexivity; try discriminate.
  split; [reflexivity | vm_compute; reflexivity].
Defined.

Lemma missing_sections_witness :
  (apply_vrm_pose_to_armature "Armature" (PyDict []) sample_world).1 = Ok false ∧
  apply_scene_rotation (PyDict []) sample_world = (Ok tt, sample_world).
Proof.
  split.
  - apply (proj1 (missing_sections []) eq_refl "Armature" sample_world).
  - apply (proj2 (missing_sections []) eq_refl sample_world).
Defined.

Lemma missing_pose_after_mode_switch_witness :
  apply_vrm_pose_to_armature "Armature" (PyDict []) sample_world
  = (Ok false,
     mkWorld (objects sample_world) (Some "Armature") "POSE" 0 [ErrNoVrmPose]).
Proof.
  apply (missing_pose_after_mode_switch "Armature" [] sample_world sample_rig).
  - vm_compute; reflexivity.
  - reflexivity.
  - reflexivity.
Defined.

Lemma scene_rotation_without_rig_is_silent_witness :
  apply_scene_rotation sample_pose empty_world = (Ok tt, empty_world) ∧
  (main (Ok sample_pose) empty_world).1 = Ok tt.
Proof.
  destruct (scene_rotation_without_rig_is_silent sample_pose
              (PyDict [("x", PyInt 90); ("y", PyInt 0); ("z", PyInt 0)])
              empty_world) as [Hsilent Hmain].
  - reflexivity.
  - reflexivity.
  - reflexivity.
  - split; [exact Hsilent | by rewrite Hmain].
Defined.

(** * Whole runs of the loop *)

Lemma pose_entry_by_verdict name k d a s w :
  pose_entry name k d a s w
  = match entry_verdict w name k d with
    | Unmapped => (Ok (a, S s), printed (WarnNoMapping k) w)
    | MissingBone b => (Ok (a, S s), printed (WarnBoneNotFound b) w)
    | Ignored => (Ok (a, s), w)
    | Written b quat =>
        (Ok (S a, s),
         with_objects (alter (with_bone b quat) name (objects w)) w)
    | Failed e => (Raise e, w)
    end.
Proof.
  unfold entry_verdict.
  destruct (dict_get VRM_TO_BLENDER_BONES k) as [b|] eqn:Hk;
    [|by rewrite pose_entry_unmapped].
  rewrite (proj2 (String.eqb_neq _ _) (bone_map_target_nonempty _ _ Hk)).
  destruct (bone_lookup w name b) as [pb|] eqn:Hb;
    [|by rewrite (pose_entry_bone_missing _ _ _ _ _ _ b)].
  rewrite (pose_entry_found _ _ _ _ _ _ b) by eauto.
  unfold rotation_verdict. by repeat case_match.
Qed.

(** A write only ever goes to a bone the table names and the rig has. *)
Lemma entry_verdict_written w name k d b quat :
  entry_verdict w name k d = Written b quat →
  dict_get VRM_TO_BLENDER_BONES k = Some b ∧
  is_Some (bone_lookup w name b).
Proof.
  unfold entry_verdict, rotation_verdict.
  destruct (dict_get VRM_TO_BLENDER_BONES k) as [b'|]; [|done].
  destruct (String.eqb b' ""); [done|].
  destruct (bone_lookup w name b') as [pb|] eqn:Hb; [|done].
  intros H. assert (b' = b) as <-; [|eauto].
  by repeat case_match; simplify_eq.
Qed.

Lemma rotations_only_refl name w : rotations_only name w w.
Proof. by repeat split. Qed.

Lemma rotations_only_trans name w1 w2 w3 :
  rotations_only name w1 w2 → rotations_only name w2 w3 →
  rotations_only name w1 w3.
Proof.
  intros (?&?&?&Hfar1&?&?&?) (?&?&?&Hfar2&?&?&?).
  repeat split; try congruence.
  intros n Hn. by rewrite Hfar2, Hfar1.
Qed.

Lemma rotations_only_printed name m w : rotations_only name w (printed m w).
Proof. by repeat split. Qed.

Lemma rotations_only_written name b quat w :
  is_Some (bone_lookup w name b) →
  rotations_only name w
    (with_objects (alter (with_bone b quat) name (objects w)) w).
Proof.
  intros [pb Hb]. unfold bone_lookup in Hb.
  destruct (objects w !! name) as [obj|] eqn:Hobj; [|done].
  repeat split; try done; simpl.
  - intros n Hn. by rewrite lookup_alter_ne.
  - intros n. destruct (decide (name = n)) as [<-|Hn];
      [by rewrite lookup_alter_eq, Hobj | by rewrite lookup_alter_ne].
  - intros n. destruct (decide (name = n)) as [<-|Hn];
      [by rewrite lookup_alter_eq, Hobj | by rewrite lookup_alter_ne].
  - intros n. destruct (decide (name = n)) as [<-|Hn];
      [|by rewrite lookup_alter_ne].
    rewrite lookup_alter_eq, Hobj. simpl. f_equal.
    rewrite dom_insert_L. apply (elem_of_dom_2 (D := gset string)) in Hb.
    by apply subseteq_union_1_L, singleton_subseteq_l.
Qed.

Lemma pose_entry_rotations_only name k d a s w :
  rotations_only name w (pose_entry name k d a s w).2.
Proof.
  rewrite pose_entry_by_verdict.
  destruct (entry_verdict w name k d) as [|b| |b quat|e] eqn:Hv;
    cbn [snd]; auto using rotations_only_refl, rotations_only_printed.
  apply rotations_only_written. by apply entry_verdict_written in Hv as [_ ?].
Qed.

Lemma pose_loop_rotations_only name entries a s w :
  rotations_only name w (pose_loop name entries a s w).2.
Proof.
  revert a s w. induction entries as [|[k d] rest IH]; intros a s w;
    [apply rotations_only_refl|].
  rewrite pose_loop_cons.
  pose proof (pose_entry_rotations_only name k d a s w) as Hstep.
  destruct (pose_entry name k d a s w) as [[counts|e] w1]; [|done].
  eapply rotations_only_trans; [exact Hstep | apply IH].
Qed.

Lemma rotations_only_presence name w w' n b :
  rotations_only name w w' →
  is_Some (bone_lookup w' n b) ↔ is_Some (bone_lookup w n b).
Proof.
  intros (_&_&_&_&_&_&Hdom). specialize (Hdom n). unfold bone_lookup.
  destruct (objects w' !! n) as [obj'|], (objects w !! n) as [obj|];
    simplify_eq/=; [|done].
  by rewrite <- !(elem_of_dom (D := gset string)), Hdom.
Qed.

(** The counters and the printed lines of a run of the loop. *)
Lemma pose_loop_tally name entries a s w :
  ∃ ws,
    stdout (pose_loop name entries a s w).2 = stdout w ++ ws ∧
    Forall (λ m, is_warning m = true) ws ∧
    length ws ≤ length entries ∧
    ∀ a' s', (pose_loop name entries a s w).1 = Ok (a', s') →
      s' = s + length ws ∧ a ≤ a' ∧ (a' - a) + length ws ≤ length entries.
Proof.
  revert a s w. induction entries as [|[k d] rest IH]; intros a s w.
  { exists []. simpl. rewrite app_nil_r. split_and!; [done|done|lia|].
    intros a' s' [= <- <-]. lia. }
  rewrite pose_loop_cons, pose_entry_by_verdict.
  destruct (entry_verdict w name k d) as [|b| |b quat|e]; cbn [fst snd length].
  - destruct (IH a (S s) (printed (WarnNoMapping k) w))
      as (ws & Hout & Hws & Hlen & Hc).
    exists (WarnNoMapping k :: ws). rewrite Hout. simpl.
    rewrite <- app_assoc. split_and!; [done|by constructor|lia|].
    intros a' s' Hr. destruct (Hc a' s' Hr) as (? & ? & ?). lia.
  - destruct (IH a (S s) (printed (WarnBoneNotFound b) w))
      as (ws & Hout & Hws & Hlen & Hc).
    exists (WarnBoneNotFound b :: ws). rewrite Hout. simpl.
    rewrite <- app_assoc. split_and!; [done|by constructor|lia|].
    intros a' s' Hr. destruct (Hc a' s' Hr) as (? & ? & ?). lia.
  - destruct (IH a s w) as (ws & Hout & Hws & Hlen & Hc).
    exists ws. split_and!; [done|done|lia|].
    intros a' s' Hr. destruct (Hc a' s' Hr) as (? & ? & ?). lia.
  - destruct (IH (S a) s
                (with_objects (alter (with_bone b quat) name (objects w)) w))
      as (ws & Hout & Hws & Hlen & Hc).
    exists ws. split_and!; [done|done|lia|].
    intros a' s' Hr. destruct (Hc a' s' Hr) as (? & ? & ?). lia.
  - exists []. rewrite app_nil_r. split_and!; [done|done|simpl; lia|done].
Qed.

(** The loop reads nothing of the world but the scene objects. *)
Lemma entry_verdict_same_objects w u name k d :
  objects u = objects w → entry_verdict u name k d = entry_verdict w name k d.
Proof. intros Hobj. unfold entry_verdict, bone_lookup. by rewrite Hobj. Qed.

Lemma pose_loop_same_objects name entries a s w u :
  objects u = objects w →
  (pose_loop name entries a s u).1 = (pose_loop name entries a s w).1 ∧
  objects (pose_loop name entries a s u).2
  = objects (pose_loop name entries a s w).2.
Proof.
  revert a s w u. induction entries as [|[k d] rest IH]; intros a s w u Hobj;
    [done|].
  rewrite !pose_loop_cons, !pose_entry_by_verdict,
    (entry_verdict_same_objects w u) by done.
  destruct (entry_verdict w name k d) as [|b| |b quat|e]; cbn [fst snd];
    try (by apply IH); [|done].
  apply IH. simpl. by rewrite Hobj.
Qed.

(** Presence of bones at every point of a run is what it was at the start,
    so the verdict on an entry does not depend on when it is taken. *)
Lemma entry_verdict_after_loop name entries a s w k d :
  entry_verdict (pose_loop name entries a s w).2 name k d
  = entry_verdict w name k d.
Proof.
  pose proof (pose_loop_rotations_only name entries a s w) as Hframe.
  unfold entry_verdict.
  destruct (dict_get VRM_TO_BLENDER_BONES k) as [b|]; [|done].
  destruct (String.eqb b ""); [done|].
  pose proof (rotations_only_presence name _ _ name b Hframe) as Hpres.
  destruct (bone_lookup _ name b), (bone_lookup w name b); try done.
  - by destruct (proj1 Hpres) as [? ?].
  - by destruct (proj2 Hpres) as [? ?].
Qed.

(** Writing to a bone the rotation it already has changes nothing. *)
Lemma alter_with_bone_same w name b quat :
  bone_lookup w name b = Some (mkPoseBone quat) →
  alter (with_bone b quat) name (objects w) = objects w.
Proof.
  intros Hb. apply alter_id. intros obj Hobj.
  unfold bone_lookup in Hb. rewrite Hobj in Hb.
  destruct obj as [t e bs]. unfold with_bone. simpl in *.
  by rewrite insert_id.
Qed.

(** Writes to two different bones commute. *)
Lemma alter_with_bone_commute name b1 q1 b2 q2 (m : gmap string Object) :
  b1 ≠ b2 →
  alter (with_bone b1 q1) name (alter (with_bone b2 q2) name m)
  = alter (with_bone b2 q2) name (alter (with_bone b1 q1) name m).
Proof.
  intros Hne. rewrite !alter_alter_eq. apply alter_ext. intros obj _.
  unfold with_bone. simpl. f_equal. by apply insert_insert_ne.
Qed.

(** Run over a list with distinct names, a second run from a world that
    already has the scene of the end of the first run ends the same way and
    leaves that scene as it is. *)
Lemma pose_loop_rerun name rest a s w1 u :
  NoDup rest.*1 →
  objects u = objects (pose_loop name rest a s w1).2 →
  (pose_loop name rest a s u).1 = (pose_loop name rest a s w1).1 ∧
  objects (pose_loop name rest a s u).2
  = objects (pose_loop name rest a s w1).2.
Proof.
  revert a s w1 u. induction rest as [|[k d] rest IH]; intros a s w1 u Hnd Hu;
    [done|].
  rewrite fmap_cons in Hnd. apply NoDup_cons in Hnd as [Hk Hnd].
  assert (entry_verdict u name k d = entry_verdict w1 name k d) as Hv.
  { by rewrite (entry_verdict_same_objects _ u _ _ _ Hu),
      entry_verdict_after_loop. }
  rewrite pose_loop_cons, pose_entry_by_verdict in Hu.
  rewrite !pose_loop_cons, !pose_entry_by_verdict, Hv.
  destruct (entry_verdict w1 name k d) as [|b| |b quat|e] eqn:Hw1;
    cbn [fst snd] in *; try (by apply IH); [|done].
  apply IH; [done|]. simpl. rewrite Hu.
  apply alter_with_bone_same.
  apply entry_verdict_written in Hw1 as [Hkb Hb].
  rewrite pose_loop_frame.
  - apply bone_lookup_written. unfold bone_lookup in Hb.
    by destruct (objects w1 !! name).
  - intros k' d' Hin Hk'.
    assert (k' = k) as -> by eauto using bone_map_injective.
    apply Hk, list_elem_of_fmap. by exists (k, d').
Qed.

Lemma pose_loop_cons_verdict name k d rest a s w :
  pose_loop name ((k, d) :: rest) a s w
  = match entry_verdict w name k d with
    | Unmapped => pose_loop name rest a (S s) (printed (WarnNoMapping k) w)
    | MissingBone b =>
        pose_loop name rest a (S s) (printed (WarnBoneNotFound b) w)
    | Ignored => pose_loop name rest a s w
    | Written b quat =>
        pose_loop name rest (S a) s
          (with_objects (alter (with_bone b quat) name (objects w)) w)
    | Failed e => (Raise e, w)
    end.
Proof.
  rewrite pose_loop_cons, pose_entry_by_verdict.
  by destruct (entry_verdict w name k d).
Qed.

Lemma entry_verdict_stable name w w' k d :
  rotations_only name w w' →
  entry_verdict w' name k d = entry_verdict w name k d.
Proof.
  intros Hframe. unfold entry_verdict.
  destruct (dict_get VRM_TO_BLENDER_BONES k) as [b|]; [|done].
  destruct (String.eqb b ""); [done|].
  pose proof (rotations_only_presence name _ _ name b Hframe) as Hpres.
  destruct (bone_lookup w' name b), (bone_lookup w name b); try done.
  - by destruct (proj1 Hpres) as [? ?].
  - by destruct (proj2 Hpres) as [? ?].
Qed.

(** Two neighbouring entries with different names can change places. *)
Lemma pose_loop_swap name k1 d1 k2 d2 l a s w counts :
  k1 ≠ k2 →
  (pose_loop name ((k2, d2) :: (k1, d1) :: l) a s w).1 = Ok counts →
  (pose_loop name ((k1, d1) :: (k2, d2) :: l) a s w).1 = Ok counts ∧
  objects (pose_loop name ((k1, d1) :: (k2, d2) :: l) a s w).2
  = objects (pose_loop name ((k2, d2) :: (k1, d1) :: l) a s w).2.
Proof.
  intros Hk Hok.
  assert (∀ k d b q, entry_verdict w name k d = Written b q →
            rotations_only name w
              (with_objects (alter (with_bone b q) name (objects w)) w))
    as Hwritten.
  { intros k d b q [_ ?]%entry_verdict_written.
    by apply rotations_only_written. }
  rewrite (pose_loop_cons_verdict name k2 d2) in Hok |- *.
  rewrite (pose_loop_cons_verdict name k1 d1 ((k2, d2) :: l)).
  destruct (entry_verdict w name k2 d2) as [|b2| |b2 q2|e2] eqn:Hv2;
    [| | | |done];
    destruct (entry_verdict w name k1 d1) as [|b1| |b1 q1|e1] eqn:Hv1;
    rewrite (pose_loop_cons_verdict name k1 d1) in Hok;
    rewrite ?(entry_verdict_stable name w _ k1 d1), ?Hv1 in Hok
      by eauto using rotations_only_printed;
    try done;
    rewrite (pose_loop_cons_verdict name k1 d1),
      (pose_loop_cons_verdict name k2 d2);
    rewrite ?(entry_verdict_stable name w _ k1 d1),
      ?(entry_verdict_stable name w _ k2 d2), ?Hv1, ?Hv2
      by eauto using rotations_only_printed;
    rewrite <- Hok; apply pose_loop_same_objects; simpl; try done.
  apply alter_with_bone_commute.
  apply entry_verdict_written in Hv1 as [Hkb1 _].
  apply entry_verdict_written in Hv2 as [Hkb2 _].
  intros <-. apply Hk. eauto using bone_map_injective.
Qed.

(** The order of the entries does not matter for a run that ends normally:
    any other order ends normally too, with the same counters and the same
    scene objects. *)
Lemma pose_loop_permutation name l l' :
  l ≡ₚ l' →
  NoDup l.*1 →
  ∀ a s w u counts,
    objects u = objects w →
    (pose_loop name l a s w).1 = Ok counts →
    (pose_loop name l' a s u).1 = Ok counts ∧
    objects (pose_loop name l' a s u).2 = objects (pose_loop name l a s w).2.
Proof.
  induction 1 as [|[k d] l l' Hperm IH|[k1 d1] [k2 d2] l|l l' l'' H1 IH1 H2 IH2];
    intros Hnd a s w u counts Hobj Hok.
  - rewrite <- Hok. by apply pose_loop_same_objects.
  - rewrite fmap_cons in Hnd. apply NoDup_cons in Hnd as [_ Hnd].
    rewrite pose_loop_cons_verdict in Hok.
    rewrite !pose_loop_cons_verdict, (entry_verdict_same_objects w u) by done.
    destruct (entry_verdict w name k d) as [|b| |b quat|e];
      try (by apply IH); [|done].
    apply IH; [done| |done]. simpl. by rewrite Hobj.
  - rewrite !fmap_cons in Hnd. cbn [fst] in Hnd.
    apply NoDup_cons in Hnd as [Hk2 _].
    assert (k1 ≠ k2) as Hk by (intros ->; apply Hk2; left).
    destruct (pose_loop_same_objects name ((k1, d1) :: (k2, d2) :: l) a s w u Hobj)
      as [-> ->].
    by apply pose_loop_swap.
  - destruct (IH1 Hnd a s w w counts eq_refl Hok) as [Hok' Hobj'].
    assert (NoDup l'.*1) as Hnd' by (by rewrite <- H1).
    destruct (IH2 Hnd' a s w u counts Hobj Hok') as [Hok'' Hobj''].
    split; [done|congruence].
Qed.

(** * Further properties of the pose applier *)

(** Where the scene objects of a call can come from: the loop run on the
    entries of the document, or on nothing at all. *)
Lemma apply_scene_objects name pose_data w :
  ∃ entries,
    (entries = [] ∨
     py_get pose_data "vrmPose" (PyDict []) = Ok (PyDict entries)) ∧
    objects (apply_vrm_pose_to_armature name pose_data w).2
    = objects (pose_loop name entries 0 0
                 (in_mode "POSE" (activated name w))).2.
Proof.
  destruct (objects w !! name) as [obj|] eqn:Hobj;
    [|exists []; rewrite apply_armature_not_found by done; auto].
  destruct (decide (type obj = "ARMATURE")) as [Htype|Htype];
    [|exists []; rewrite (apply_not_an_armature _ _ _ obj) by done; auto].
  rewrite (apply_armature_found _ _ _ obj) by done.
  destruct (py_get pose_data "vrmPose" (PyDict [])) as [vrm_pose|e];
    [|exists []; auto].
  destruct (truthy vrm_pose); [|exists []; auto].
  destruct vrm_pose as [| | | | | |entries]; try (exists []; by auto).
  exists entries. split; [by right|]. cbn [py_items].
  by destruct (pose_loop name entries 0 0 _) as [[counts|e] w'].
Qed.

(** X1: when the loop ends normally, neither counter has gone down and
    together they have gone up by at most the number of entries. *)
Theorem loop_counts_bounded name entries a s w a' s' :
  (pose_loop name entries a s w).1 = Ok (a', s') →
  a ≤ a' ∧ s ≤ s' ∧ (a' - a) + (s' - s) ≤ length entries.
Proof.
  intros Hok.
  destruct (pose_loop_tally name entries a s w) as (ws & _ & _ & _ & Hc).
  destruct (Hc a' s' Hok) as (-> & ? & ?). lia.
Qed.

(** X2: the loop prints warnings and nothing else, after what was printed
    before; when it ends normally it has printed exactly one warning for
    each bone it counted as skipped. *)
Theorem loop_prints_one_warning_per_skip name entries a s w :
  ∃ ws,
    stdout (pose_loop name entries a s w).2 = stdout w ++ ws ∧
    Forall (λ m, is_warning m = true) ws ∧
    ∀ a' s', (pose_loop name entries a s w).1 = Ok (a', s') →
             s' = s + length ws.
Proof.
  destruct (pose_loop_tally name entries a s w) as (ws & Hout & Hws & _ & Hc).
  exists ws. split_and!; [done|done|].
  intros a' s' Hok. by destruct (Hc a' s' Hok) as (-> & _).
Qed.

Lemma apply_keeps_shape name pose_data w :
  let w' := (apply_vrm_pose_to_armature name pose_data w).2 in
  (∀ n, n ≠ name → objects w' !! n = objects w !! n) ∧
  (∀ n, type <$> objects w' !! n = type <$> objects w !! n) ∧
  (∀ n, rotation_euler <$> objects w' !! n
        = rotation_euler <$> objects w !! n) ∧
  (∀ n, (λ obj, dom (bones obj)) <$> objects w' !! n
        =@{option (gset string)} (λ obj, dom (bones obj)) <$> objects w !! n).
Proof.
  intros w'. unfold w'.
  destruct (apply_scene_objects name pose_data w) as (entries & _ & ->).
  by destruct (pose_loop_rotations_only name entries 0 0
                 (in_mode "POSE" (activated name w)))
    as (_ & _ & _ & ? & ? & ? & ?).
Qed.

(** X3: however a call of the pose applier ends, it has not added, removed
    or retyped an object, changed an Euler rotation, added or removed a
    bone, or touched any object other than the named one. *)
Theorem apply_changes_bone_rotations_only name pose_data w :
  let w' := (apply_vrm_pose_to_armature name pose_data w).2 in
  (∀ n, n ≠ name → objects w' !! n = objects w !! n) ∧
  (∀ n, type <$> objects w' !! n = type <$> objects w !! n) ∧
  (∀ n, rotation_euler <$> objects w' !! n
        = rotation_euler <$> objects w !! n) ∧
  (∀ n, (λ obj, dom (bones obj)) <$> objects w' !! n
        =@{option (gset string)} (λ obj, dom (bones obj)) <$> objects w !! n).
Proof. apply apply_keeps_shape. Qed.

(** X4: a bone that no name of the document's [vrmPose] section maps to
    keeps its rotation, in every object and however the call ends. *)
Theorem untargeted_bone_keeps_rotation name pose_data w b :
  (∀ entries k d,
     py_get pose_data "vrmPose" (PyDict []) = Ok (PyDict entries) →
     (k, d) ∈ entries → dict_get VRM_TO_BLENDER_BONES k ≠ Some b) →
  ∀ n, bone_lookup (apply_vrm_pose_to_armature name pose_data w).2 n b
       = bone_lookup w n b.
Proof.
  intros Huntargeted n.
  destruct (apply_scene_objects name pose_data w) as (entries & Hentries & Hobj).
  set (w0 := in_mode "POSE" (activated name w)) in *.
  assert (bone_lookup (pose_loop name entries 0 0 w0).2 n b = bone_lookup w0 n b)
    as Hloop.
  { destruct (decide (n = name)) as [->|Hn].
    - apply pose_loop_frame. intros k d Hin.
      destruct Hentries as [->|Hget]; [by apply elem_of_nil in Hin|eauto].
    - destruct (pose_loop_rotations_only name entries 0 0 w0)
        as (_ & _ & _ & Hfar & _).
      unfold bone_lookup. by rewrite Hfar. }
  unfold bone_lookup in *. by rewrite Hobj, Hloop.
Qed.

(** X5: a call that returns [True] has made the armature active, entered
    pose mode and refreshed the view exactly once; what it printed is the
    warnings of the loop followed by the two summary lines, whose counts
    are the number of warnings and, together, at most the number of entries
    of the [vrmPose] section. *)
Theorem apply_true_summary name pose_data w w' :
  apply_vrm_pose_to_armature name pose_data w = (Ok true, w') →
  active w' = Some name ∧ mode w' = "POSE" ∧
  view_updates w' = S (view_updates w) ∧
  ∃ entries a s ws,
    py_get pose_data "vrmPose" (PyDict []) = Ok (PyDict entries) ∧
    stdout w' = stdout w ++ ws ++ [InfoApplied a; InfoSkipped s] ∧
    Forall (λ m, is_warning m = true) ws ∧
    length ws = s ∧ a + s ≤ length entries.
Proof.
  destruct (objects w !! name) as [obj|] eqn:Hobj;
    [|by rewrite apply_armature_not_found].
  destruct (decide (type obj = "ARMATURE")) as [Htype|Htype];
    [|by rewrite (apply_not_an_armature _ _ _ obj)].
  rewrite (apply_armature_found _ _ _ obj) by done.
  destruct (py_get pose_data "vrmPose" (PyDict [])) as [vrm_pose|e]; [|done].
  destruct (truthy vrm_pose); [|done].
  destruct vrm_pose as [| | | | | |entries]; try done. cbn [py_items].
  set (w0 := in_mode "POSE" (activated name w)).
  destruct (pose_loop_tally name entries 0 0 w0) as (ws & Hout & Hws & _ & Hc).
  destruct (pose_loop_rotations_only name entries 0 0 w0)
    as (Hactive & Hmode & Hviews & _).
  destruct (pose_loop name entries 0 0 w0) as [[[a s]|e] w1]; [|done].
  intros [= <-]. cbn [fst snd] in *.
  destruct (Hc a s eq_refl) as (-> & _ & Hbound).
  split_and!; [done|done|simpl; by rewrite Hviews|].
  exists entries, a, (length ws), ws. split_and!; try done; [|lia].
  simpl. rewrite Hout. by rewrite <- !app_assoc.
Qed.

(** X6: a call that returns [False] has written no bone and refreshed no
    view, and has printed exactly one line, the reason. *)
Theorem apply_false_writes_nothing name pose_data w w' :
  apply_vrm_pose_to_armature name pose_data w = (Ok false, w') →
  objects w' = objects w ∧ view_updates w' = view_updates w ∧
  ∃ m, stdout w' = stdout w ++ [m] ∧
       (m = ErrArmatureNotFound name ∨ m = ErrNotAnArmature name ∨
        m = ErrNoVrmPose).
Proof.
  destruct (objects w !! name) as [obj|] eqn:Hobj.
  2: { rewrite apply_armature_not_found by done. intros [= <-].
       split_and!; [done|done|]. eexists. split; [done|auto]. }
  destruct (decide (type obj = "ARMATURE")) as [Htype|Htype].
  2: { rewrite (apply_not_an_armature _ _ _ obj) by done. intros [= <-].
       split_and!; [done|done|]. eexists. split; [done|auto]. }
  rewrite (apply_armature_found _ _ _ obj) by done.
  destruct (py_get pose_data "vrmPose" (PyDict [])) as [vrm_pose|e]; [|done].
  destruct (truthy vrm_pose).
  - destruct (py_items vrm_pose) as [entries|e]; [|done].
    by destruct (pose_loop name entries 0 0 _) as [[counts|e] w1].
  - intros [= <-]. split_and!; [done|done|]. eexists. split; [done|auto].
Qed.

(** X7: a [vrmPose] section that is present but empty or null (or any other
    falsy value) is reported like a missing one: with the armature found,
    the call returns [False] after the mode switch, with the objects as
    they were. *)
Theorem empty_pose_section_is_missing name pose_data w obj vrm_pose :
  objects w !! name = Some obj →
  type obj = "ARMATURE" →
  py_get pose_data "vrmPose" (PyDict []) = Ok vrm_pose →
  truthy vrm_pose = false →
  apply_vrm_pose_to_armature name pose_data w
  = (Ok false, printed ErrNoVrmPose (in_mode "POSE" (activated name w))).
Proof.
  intros Hobj Htype Hget Hfalsy.
  by rewrite (apply_armature_found _ _ _ obj), Hget, Hfalsy.
Qed.

(** X8: a non-empty [vrmPose] section that is not an object (an array, a
    string, a number, [true]) makes the call raise [AttributeError] right
    after the mode switch: no bone is written, nothing is printed and the
    view is not refreshed. *)
Theorem non_object_pose_section_raises name pose_data w obj vrm_pose :
  objects w !! name = Some obj →
  type obj = "ARMATURE" →
  py_get pose_data "vrmPose" (PyDict []) = Ok vrm_pose →
  truthy vrm_pose = true →
  (∀ entries, vrm_pose ≠ PyDict entries) →
  apply_vrm_pose_to_armature name pose_data w
  = (Raise AttributeError, in_mode "POSE" (activated name w)).
Proof.
  intros Hobj Htype Hget Htruthy Hshape.
  rewrite (apply_armature_found _ _ _ obj), Hget, Htruthy by done.
  destruct vrm_pose; try done. by destruct (Hshape items).
Qed.

(** * Further properties of the scene rotation applier *)

(** The three ways a call can end. *)
Lemma scene_rotation_outcome pose_data w :
  apply_scene_rotation pose_data w = (Ok tt, w) ∨
  (∃ e, apply_scene_rotation pose_data w = (Raise e, w)) ∨
  (∃ x y z gx gy gz,
     is_Some (objects w !! ARMATURE_NAME) ∧
     apply_scene_rotation pose_data w
     = (Ok tt,
        printed (InfoSceneRotation gx gy gz)
          (with_objects
             (alter (with_euler (mkEuler x y z "XYZ")) ARMATURE_NAME
                (objects w))
             w))).
Proof.
  set (out := apply_scene_rotation pose_data w).
  assert (out = apply_scene_rotation pose_data w) as Hout by done.
  clearbody out. unfold apply_scene_rotation, bind at 1, lift in Hout.
  destruct (py_get pose_data "sceneRotation" (PyDict [])) as [sr|e];
    [|subst; eauto].
  destruct (negb (truthy sr)); [subst; by left|].
  unfold bind at 1, objects_get in Hout.
  destruct (objects w !! ARMATURE_NAME) as [obj|] eqn:Hobj; [|subst; by left].
  unfold bind at 1 in Hout.
  destruct (py_get sr "x" (PyInt 0)) as [gx|e]; [|subst; eauto].
  unfold bind at 1 in Hout. destruct (radians gx) as [x|e]; [|subst; eauto].
  unfold bind at 1 in Hout.
  destruct (py_get sr "y" (PyInt 0)) as [gy|e]; [|subst; eauto].
  unfold bind at 1 in Hout. destruct (radians gy) as [y|e]; [|subst; eauto].
  unfold bind at 1 in Hout.
  destruct (py_get sr "z" (PyInt 0)) as [gz|e]; [|subst; eauto].
  unfold bind at 1 in Hout. destruct (radians gz) as [z|e]; [|subst; eauto].
  right. right. exists x, y, z, gx, gy, gz. split; [eauto|by subst].
Qed.

Lemma lookup_alter_with_euler {A} (f : Object → A) e name n
    (m : gmap string Object) :
  (∀ obj, f (with_euler e obj) = f obj) →
  f <$> alter (with_euler e) name m !! n = f <$> m !! n.
Proof.
  intros Hf. destruct (decide (name = n)) as [<-|Hn];
    [|by rewrite lookup_alter_ne].
  rewrite lookup_alter_eq. destruct (m !! name); simpl; by rewrite ?Hf.
Qed.

(** X9: however a call of the scene rotation applier ends, the bones of
    every object, the types of the objects, every object other than the
    configured one, the active object, the mode and the refresh count are
    as before. *)
Theorem scene_rotation_touches_euler_only pose_data w :
  let w' := (apply_scene_rotation pose_data w).2 in
  (∀ n b, bone_lookup w' n b = bone_lookup w n b) ∧
  (∀ n, type <$> objects w' !! n = type <$> objects w !! n) ∧
  (∀ n, n ≠ ARMATURE_NAME → objects w' !! n = objects w !! n) ∧
  active w' = active w ∧ mode w' = mode w ∧
  view_updates w' = view_updates w.
Proof.
  intros w'. unfold w'.
  destruct (scene_rotation_outcome pose_data w)
    as [->|[[e ->]|(x & y & z & gx & gy & gz & _ & ->)]]; try done.
  cbn [snd]. split_and!; try done.
  - intros n b. unfold bone_lookup. simpl.
    pose proof (lookup_alter_with_euler bones (mkEuler x y z "XYZ")
                  ARMATURE_NAME n (objects w) (λ _, eq_refl)) as Hbones.
    destruct (alter _ _ _ !! n), (objects w !! n); simplify_eq/=;
      [congruence|done].
  - intros n. by apply lookup_alter_with_euler.
  - intros n Hn. simpl. by rewrite lookup_alter_ne.
Qed.

(** X10: the rotation is written only after all three angles have been
    converted: a call that raises leaves the world exactly as it was. *)
Theorem scene_rotation_raise_leaves_world pose_data w e :
  (apply_scene_rotation pose_data w).1 = Raise e →
  (apply_scene_rotation pose_data w).2 = w.
Proof.
  destruct (scene_rotation_outcome pose_data w)
    as [->|[[e' ->]|(x & y & z & gx & gy & gz & _ & ->)]]; done.
Qed.

(** X11: an angle missing from a non-empty [sceneRotation] counts as 0; in
    particular a [sceneRotation] with none of the keys x, y, z sets the
    object's rotation to zero. *)
Theorem scene_rotation_without_axes_resets pose_data sr w obj :
  py_get pose_data "sceneRotation" (PyDict []) = Ok (PyDict sr) →
  sr ≠ [] →
  dict_get sr "x" = None → dict_get sr "y" = None → dict_get sr "z" = None →
  objects w !! ARMATURE_NAME = Some obj →
  objects (apply_scene_rotation pose_data w).2 !! ARMATURE_NAME
  = Some (mkObject (type obj) (mkEuler 0 0 0 "XYZ") (bones obj)).
Proof.
  intros Hsr Hne Hx Hy Hz Hobj.
  rewrite (scene_rotation_applied _ _ sr obj (PyInt 0) (PyInt 0) (PyInt 0) 0 0 0);
    try done; try (unfold py_get; by rewrite ?Hx, ?Hy, ?Hz).
  cbn [snd printed with_objects objects].
  by rewrite lookup_alter_eq, Hobj.
Qed.

(** * Runs compared *)

(** Neither applier looks at anything of the world but the scene objects. *)
Lemma apply_same_objects name pose_data w u :
  objects u = objects w →
  (apply_vrm_pose_to_armature name pose_data u).1
  = (apply_vrm_pose_to_armature name pose_data w).1 ∧
  objects (apply_vrm_pose_to_armature name pose_data u).2
  = objects (apply_vrm_pose_to_armature name pose_data w).2.
Proof.
  intros Hobj.
  destruct (objects w !! name) as [obj|] eqn:Hw.
  2: { by rewrite !apply_armature_not_found by (by rewrite ?Hobj). }
  destruct (decide (type obj = "ARMATURE")) as [Htype|Htype].
  2: { by rewrite !(apply_not_an_armature _ _ _ obj) by (by rewrite ?Hobj). }
  rewrite !(apply_armature_found _ _ _ obj) by (by rewrite ?Hobj).
  destruct (py_get pose_data "vrmPose" (PyDict [])) as [vrm_pose|e]; [|done].
  destruct (truthy vrm_pose); [|done].
  destruct (py_items vrm_pose) as [entries|e]; [|done].
  destruct (pose_loop_same_objects name entries 0 0
              (in_mode "POSE" (activated name w))
              (in_mode "POSE" (activated name u)) Hobj) as [Hres Hscene].
  destruct (pose_loop name entries 0 0 (in_mode "POSE" (activated name w)))
    as [[c|e] w1],
    (pose_loop name entries 0 0 (in_mode "POSE" (activated name u)))
    as [[c'|e'] u1]; by simplify_eq/=.
Qed.

Lemma scene_rotation_by_cases pose_data w :
  apply_scene_rotation pose_data w
  = match py_get pose_data "sceneRotation" (PyDict []) with
    | Raise e => (Raise e, w)
    | Ok sr =>
        if truthy sr then
          match objects w !! ARMATURE_NAME with
          | None => (Ok tt, w)
          | Some _ =>
              match py_get sr "x" (PyInt 0) with
              | Raise e => (Raise e, w)
              | Ok gx =>
              match radians gx with
              | Raise e => (Raise e, w)
              | Ok x =>
              match py_get sr "y" (PyInt 0) with
              | Raise e => (Raise e, w)
              | Ok gy =>
              match radians gy with
              | Raise e => (Raise e, w)
              | Ok y =>
              match py_get sr "z" (PyInt 0) with
              | Raise e => (Raise e, w)
              | Ok gz =>
              match radians gz with
              | Raise e => (Raise e, w)
              | Ok z =>
                  (Ok tt,
                   printed (InfoSceneRotation gx gy gz)
                     (with_objects
                        (alter (with_euler (mkEuler x y z "XYZ"))
                           ARMATURE_NAME (objects w))
                        w))
              end end end end end end
          end
        else (Ok tt, w)
    end.
Proof.
  unfold apply_scene_rotation, bind at 1, lift.
  destruct (py_get pose_data "sceneRotation" (PyDict [])) as [sr|e]; [|done].
  destruct (truthy sr); cbn [negb]; [|done].
  unfold bind at 1, objects_get.
  destruct (objects w !! ARMATURE_NAME) as [obj|]; [|done].
  unfold bind at 1. destruct (py_get sr "x" (PyInt 0)) as [gx|e]; [|done].
  unfold bind at 1. destruct (radians gx) as [x|e]; [|done].
  unfold bind at 1. destruct (py_get sr "y" (PyInt 0)) as [gy|e]; [|done].
  unfold bind at 1. destruct (radians gy) as [y|e]; [|done].
  unfold bind at 1. destruct (py_get sr "z" (PyInt 0)) as [gz|e]; [|done].
  unfold bind at 1. destruct (radians gz) as [z|e]; [|done].
  reflexivity.
Qed.

Lemma scene_rotation_same_objects pose_data w u :
  objects u = objects w →
  (apply_scene_rotation pose_data u).1 = (apply_scene_rotation pose_data w).1 ∧
  objects (apply_scene_rotation pose_data u).2
  = objects (apply_scene_rotation pose_data w).2.
Proof.
  intros Hobj. rewrite !scene_rotation_by_cases, Hobj.
  repeat case_match; simplify_eq/=; by rewrite ?Hobj.
Qed.

(** X12: applying the same document a second time ends the same way as the
    first time and leaves the scene objects as the first call left them:
    rotations are overwritten, never accumulated. *)
Theorem apply_twice_same_scene name pose_data w :
  (∀ entries, py_get pose_data "vrmPose" (PyDict []) = Ok (PyDict entries) →
              NoDup entries.*1) →
  let first := apply_vrm_pose_to_armature name pose_data w in
  let second := apply_vrm_pose_to_armature name pose_data first.2 in
  second.1 = first.1 ∧ objects second.2 = objects first.2.
Proof.
  intros Hkeys first second. unfold second, first. clear first second.
  assert (objects (apply_vrm_pose_to_armature name pose_data w).2 = objects w →
          (apply_vrm_pose_to_armature name pose_data
             (apply_vrm_pose_to_armature name pose_data w).2).1
          = (apply_vrm_pose_to_armature name pose_data w).1 ∧
          objects (apply_vrm_pose_to_armature name pose_data
                     (apply_vrm_pose_to_armature name pose_data w).2).2
          = objects (apply_vrm_pose_to_armature name pose_data w).2)
    as Hunchanged.
  { intros Hsame.
    destruct (apply_same_objects name pose_data w _ Hsame) as [-> ->]. done. }
  destruct (objects w !! name) as [obj|] eqn:Hw.
  2: { apply Hunchanged. by rewrite apply_armature_not_found. }
  destruct (decide (type obj = "ARMATURE")) as [Htype|Htype].
  2: { apply Hunchanged. by rewrite (apply_not_an_armature _ _ _ obj). }
  revert Hunchanged. rewrite (apply_armature_found _ _ _ obj) by done.
  set (w0 := in_mode "POSE" (activated name w)).
  destruct (py_get pose_data "vrmPose" (PyDict [])) as [vrm_pose|e] eqn:Hget;
    [|by intros Hunchanged; apply Hunchanged].
  destruct (truthy vrm_pose) eqn:Htruthy;
    [|by intros Hunchanged; apply Hunchanged].
  destruct vrm_pose as [| | | | | |entries];
    try (by intros Hunchanged; apply Hunchanged).
  intros _. cbn [py_items].
  pose proof (pose_loop_rotations_only name entries 0 0 w0)
    as (_ & _ & _ & _ & Htypes & _).
  specialize (Htypes name).
  assert (∀ u, objects u = objects (pose_loop name entries 0 0 w0).2 →
            (apply_vrm_pose_to_armature name pose_data u).1
            = match (pose_loop name entries 0 0 w0).1 with
              | Ok _ => Ok true
              | Raise e => Raise e
              end ∧
            objects (apply_vrm_pose_to_armature name pose_data u).2
            = objects (pose_loop name entries 0 0 w0).2) as Hsecond.
  { intros u Hu. rewrite <- Hu in Htypes.
    replace (objects w0 !! name) with (Some obj) in Htypes by done.
    destruct (objects u !! name) as [obj'|] eqn:Hobj'; simpl in Htypes;
      [|done].
    rewrite (apply_armature_found _ _ _ obj'), Hget, Htruthy by congruence.
    cbn [py_items].
    destruct (pose_loop_rerun name entries 0 0 w0
                (in_mode "POSE" (activated name u)) (Hkeys _ eq_refl) Hu)
      as [Hres Hscene].
    destruct (pose_loop name entries 0 0 (in_mode "POSE" (activated name u)))
      as [[c'|e'] u1], (pose_loop name entries 0 0 w0) as [[c|e] w1];
      by simplify_eq/=. }
  destruct (pose_loop name entries 0 0 w0) as [[c|e] w1] eqn:Hloop;
    cbn [fst snd] in *; by apply Hsecond.
Qed.

(** X13: the order of the entries of the [vrmPose] section does not matter
    to a call that returns [True]: with the entries in any other order the
    call returns [True] as well, leaves the same scene objects and reports
    the same two counts. *)
Theorem entry_order_irrelevant name pose_data pose_data' w l l' :
  py_get pose_data "vrmPose" (PyDict []) = Ok (PyDict l) →
  py_get pose_data' "vrmPose" (PyDict []) = Ok (PyDict l') →
  l ≡ₚ l' →
  NoDup l.*1 →
  let out := apply_vrm_pose_to_armature name pose_data w in
  let out' := apply_vrm_pose_to_armature name pose_data' w in
  out.1 = Ok true →
  out'.1 = Ok true ∧ objects out'.2 = objects out.2 ∧
  ∃ a s ws ws',
    stdout out.2 = stdout w ++ ws ++ [InfoApplied a; InfoSkipped s] ∧
    stdout out'.2 = stdout w ++ ws' ++ [InfoApplied a; InfoSkipped s] ∧
    length ws = s ∧ length ws' = s.
Proof.
  intros Hget Hget' Hperm Hnd out out'. unfold out, out'. clear out out'.
  destruct (objects w !! name) as [obj|] eqn:Hobj;
    [|by rewrite apply_armature_not_found].
  destruct (decide (type obj = "ARMATURE")) as [Htype|Htype];
    [|by rewrite (apply_not_an_armature _ _ _ obj)].
  rewrite !(apply_armature_found _ _ _ obj), Hget, Hget' by done.
  assert (truthy (PyDict l') = truthy (PyDict l)) as ->.
  { destruct l, l'; try done.
    - by apply Permutation_nil_cons in Hperm.
    - symmetry in Hperm. by apply Permutation_nil_cons in Hperm. }
  destruct (truthy (PyDict l)); [|done]. cbn [py_items].
  set (w0 := in_mode "POSE" (activated name w)).
  pose proof (pose_loop_permutation name l l' Hperm Hnd 0 0 w0 w0) as Hswap.
  destruct (pose_loop_tally name l 0 0 w0) as (ws & Hout & _ & _ & Hc).
  destruct (pose_loop_tally name l' 0 0 w0) as (ws' & Hout' & _ & _ & Hc').
  destruct (pose_loop name l 0 0 w0) as [[[a s]|e] w1]; [|done].
  intros _. destruct (Hswap (a, s) eq_refl eq_refl) as [Hres Hscene].
  destruct (pose_loop name l' 0 0 w0) as [[c'|e'] w1']; [|done].
  cbn [fst snd] in *. injection Hres as ->.
  destruct (Hc a s eq_refl) as (Hs & _), (Hc' a s eq_refl) as (Hs' & _).
  split_and!; [done|done|].
  exists a, s, ws, ws'. simpl. rewrite Hout, Hout', <- !app_assoc.
  split_and!; [done|done|lia|lia].
Qed.

(** A change of Euler rotation passes through the loop untouched. *)
Lemma with_euler_with_bone e b quat obj :
  with_bone b quat (with_euler e obj) = with_euler e (with_bone b quat obj).
Proof. reflexivity. Qed.

Lemma alter_with_bone_with_euler name n e b quat (m : gmap string Object) :
  alter (with_bone b quat) name (alter (with_euler e) n m)
  = alter (with_euler e) n (alter (with_bone b quat) name m).
Proof.
  destruct (decide (name = n)) as [<-|Hn]; [|by apply alter_alter_ne].
  rewrite !alter_alter_eq. by apply alter_ext.
Qed.

Lemma entry_verdict_euler name n e w u k d :
  objects u = alter (with_euler e) n (objects w) →
  entry_verdict u name k d = entry_verdict w name k d.
Proof.
  intros Hu. unfold entry_verdict, bone_lookup. rewrite Hu.
  pose proof (lookup_alter_with_euler bones e n name (objects w)
                (λ _, eq_refl)) as Hbones.
  destruct (alter _ _ _ !! name), (objects w !! name); simplify_eq/=;
    try done.
  match goal with H : bones _ = bones _ |- _ => by rewrite H end.
Qed.

Lemma pose_loop_euler_commute name n e entries a s w u :
  objects u = alter (with_euler e) n (objects w) →
  (pose_loop name entries a s u).1 = (pose_loop name entries a s w).1 ∧
  objects (pose_loop name entries a s u).2
  = alter (with_euler e) n (objects (pose_loop name entries a s w).2).
Proof.
  revert a s w u. induction entries as [|[k d] rest IH]; intros a s w u Hu;
    [done|].
  rewrite !pose_loop_cons_verdict, (entry_verdict_euler name n e w u) by done.
  destruct (entry_verdict w name k d) as [|b| |b quat|e'];
    try (by apply IH); [|done].
  apply IH. simpl. by rewrite Hu, alter_with_bone_with_euler.
Qed.

Lemma apply_euler_commute name n e pose_data w u :
  objects u = alter (with_euler e) n (objects w) →
  (apply_vrm_pose_to_armature name pose_data u).1
  = (apply_vrm_pose_to_armature name pose_data w).1 ∧
  objects (apply_vrm_pose_to_armature name pose_data u).2
  = alter (with_euler e) n (objects (apply_vrm_pose_to_armature name pose_data w).2).
Proof.
  intros Hu.
  pose proof (lookup_alter_with_euler type e n name (objects w) (λ _, eq_refl))
    as Htype.
  rewrite <- Hu in Htype.
  destruct (objects w !! name) as [obj|] eqn:Hw,
           (objects u !! name) as [obj'|] eqn:Hu'; simplify_eq/=.
  2: { by rewrite !apply_armature_not_found. }
  destruct (decide (type obj = "ARMATURE")) as [Hobj|Hobj].
  2: { rewrite (apply_not_an_armature _ _ _ obj'),
         (apply_not_an_armature _ _ _ obj) by congruence. done. }
  rewrite (apply_armature_found _ _ _ obj'), (apply_armature_found _ _ _ obj)
    by congruence.
  destruct (py_get pose_data "vrmPose" (PyDict [])) as [vrm_pose|e']; [|done].
  destruct (truthy vrm_pose); [|done].
  destruct (py_items vrm_pose) as [entries|e']; [|done].
  destruct (pose_loop_euler_commute name n e entries 0 0
              (in_mode "POSE" (activated name w))
              (in_mode "POSE" (activated name u)) Hu) as [Hres Hscene].
  destruct (pose_loop name entries 0 0 (in_mode "POSE" (activated name w)))
    as [[c|e1] w1],
    (pose_loop name entries 0 0 (in_mode "POSE" (activated name u)))
    as [[c'|e1'] u1]; by simplify_eq/=.
Qed.

(** What a call of the scene rotation applier does to the objects depends
    on the document and on whether the configured object exists. *)
Lemma scene_rotation_by_presence pose_data w w' :
  (is_Some (objects w' !! ARMATURE_NAME) ↔ is_Some (objects w !! ARMATURE_NAME)) →
  (apply_scene_rotation pose_data w').1 = (apply_scene_rotation pose_data w).1 ∧
  ((objects (apply_scene_rotation pose_data w).2 = objects w ∧
    objects (apply_scene_rotation pose_data w').2 = objects w') ∨
   (∃ e,
      objects (apply_scene_rotation pose_data w).2
      = alter (with_euler e) ARMATURE_NAME (objects w) ∧
      objects (apply_scene_rotation pose_data w').2
      = alter (with_euler e) ARMATURE_NAME (objects w'))).
Proof.
  intros Hpres. rewrite !scene_rotation_by_cases.
  destruct (py_get pose_data "sceneRotation" (PyDict [])) as [sr|e]; [|auto].
  destruct (truthy sr); [|auto].
  destruct (objects w' !! ARMATURE_NAME) as [obj'|],
           (objects w !! ARMATURE_NAME) as [obj|].
  - repeat case_match; eauto.
  - by destruct (proj1 Hpres) as [? ?].
  - by destruct (proj2 Hpres) as [? ?].
  - auto.
Qed.

(** X14: the two appliers do not interfere.  Posing after rotating and
    rotating after posing leave the same scene objects, and each of the two
    ends the way it would have ended on the initial scene. *)
Theorem appliers_commute name pose_data w :
  let rotated := apply_scene_rotation pose_data w in
  let posed := apply_vrm_pose_to_armature name pose_data w in
  let rotated_then_posed := apply_vrm_pose_to_armature name pose_data rotated.2 in
  let posed_then_rotated := apply_scene_rotation pose_data posed.2 in
  rotated_then_posed.1 = posed.1 ∧
  posed_then_rotated.1 = rotated.1 ∧
  objects rotated_then_posed.2 = objects posed_then_rotated.2.
Proof.
  cbv zeta.
  destruct (apply_keeps_shape name pose_data w) as (_ & Htypes & _).
  destruct (scene_rotation_by_presence pose_data w
              (apply_vrm_pose_to_armature name pose_data w).2)
    as [Hres [[Hrot Hrot']|(e & Hrot & Hrot')]].
  { specialize (Htypes ARMATURE_NAME).
    destruct (objects _ !! ARMATURE_NAME), (objects w !! ARMATURE_NAME);
      by simplify_eq/=. }
  - destruct (apply_same_objects name pose_data w _ Hrot) as [-> ->].
    by rewrite Hrot'.
  - destruct (apply_euler_commute name ARMATURE_NAME e pose_data w _ Hrot)
      as [-> ->].
    by rewrite Hrot'.
Qed.

(** * Further properties of the run *)

Lemma main_by_cases pose_data w :
  main (Ok pose_data) w
  = match apply_scene_rotation pose_data
            (printed_lines [ Banner; Title; Banner; InfoLoading JSON_PATH;
                             InfoLoaded; InfoApplyingSceneRotation ] w) with
    | (Raise e, w1) => (Raise e, w1)
    | (Ok _, w1) =>
        match apply_vrm_pose_to_armature ARMATURE_NAME pose_data
                (printed (InfoApplyingPose ARMATURE_NAME) w1) with
        | (Raise e, w2) => (Raise e, w2)
        | (Ok true, w2) =>
            (Ok tt,
             printed_lines [ InfoSuccess; NextStepsHeader; NextStep 1;
                             NextStep 2; NextStep 3; Banner ] w2)
        | (Ok false, w2) =>
            (Ok tt,
             printed_lines [ ErrFailed; TroubleshootingHeader;
                             TroubleshootingHint 1; TroubleshootingHint 2;
                             TroubleshootingHint 3; Banner ] w2)
        end
    end.
Proof.
  unfold main. do 7 (unfold bind at 1; cbn [print]).
  cbn [printed_lines foldl].
  destruct (apply_scene_rotation pose_data _) as [[[]|e] w1]; [|done].
  unfold bind at 1; cbn [print]. unfold bind at 1.
  destruct (apply_vrm_pose_to_armature ARMATURE_NAME pose_data _)
    as [[[]|e] w2]; done.
Qed.

Lemma objects_printed_lines ms w : objects (printed_lines ms w) = objects w.
Proof.
  revert w. induction ms as [|m ms IH]; intros w; [done|].
  apply (IH (printed m w)).
Qed.

Lemma scene_rotation_keeps_types pose_data w n :
  type <$> objects (apply_scene_rotation pose_data w).2 !! n
  = type <$> objects w !! n.
Proof.
  destruct (scene_rotation_outcome pose_data w)
    as [->|[[e ->]|(x & y & z & gx & gy & gz & _ & ->)]]; try done.
  by apply lookup_alter_with_euler.
Qed.

(** X15: [main] is the scene rotation followed by the pose application,
    with no exception caught in between: it raises what the first of the
    two to raise raises, the scene objects it leaves are those the two
    calls leave in turn, and when the rotation raises the pose is never
    applied.  When loading failed it returns normally with the scene
    objects as they were. *)
Theorem main_is_rotation_then_pose pose_data w :
  let rotated := apply_scene_rotation pose_data w in
  let posed := apply_vrm_pose_to_armature ARMATURE_NAME pose_data rotated.2 in
  (main (Ok pose_data) w).1
  = match rotated.1, posed.1 with
    | Raise e, _ => Raise e
    | Ok _, Raise e => Raise e
    | Ok _, Ok _ => Ok tt
    end ∧
  objects (main (Ok pose_data) w).2
  = match rotated.1 with
    | Raise _ => objects w
    | Ok _ => objects posed.2
    end ∧
  (∀ e, (main (Raise e) w).1 = Ok tt ∧
        objects (main (Raise e) w).2 = objects w).
Proof.
  cbv zeta. split_and!; [| |done].
  all: rewrite main_by_cases.
  all: set (w0 := printed_lines _ w).
  all: destruct (scene_rotation_same_objects pose_data w w0
                   (objects_printed_lines _ w)) as [Hres Hscene].
  all: pose proof (scene_rotation_outcome pose_data w) as Hout.
  all: destruct (apply_scene_rotation pose_data w0) as [[[]|e] w1];
         cbn [fst snd] in *; rewrite <- Hres.
  all: try (destruct Hout as [Hout|[[e' Hout]|(?&?&?&?&?&?&_&Hout)]];
            rewrite Hout in Hres, Hscene; by simplify_eq/=).
  all: destruct (apply_same_objects ARMATURE_NAME pose_data
                   (apply_scene_rotation pose_data w).2
                   (printed (InfoApplyingPose ARMATURE_NAME) w1) Hscene)
         as [Hres' Hscene'].
  all: destruct (apply_vrm_pose_to_armature ARMATURE_NAME pose_data
                   (printed _ w1)) as [[[]|e] w2];
         cbn [fst snd] in *; rewrite <- ?Hres', <- ?Hscene';
         by rewrite ?objects_printed_lines.
Qed.

(** X16: a document whose top level is not an object (say an array) makes
    [main] raise [AttributeError] in the scene rotation step, before
    anything in the scene is touched and with the closing banner unprinted. *)
Theorem main_non_object_document_raises pose_data w :
  (∀ items, pose_data ≠ PyDict items) →
  main (Ok pose_data) w
  = (Raise AttributeError,
     printed_lines [ Banner; Title; Banner; InfoLoading JSON_PATH;
                     InfoLoaded; InfoApplyingSceneRotation ] w).
Proof.
  intros Hshape. rewrite main_by_cases, scene_rotation_by_cases.
  destruct pose_data; try done. by destruct (Hshape items).
Qed.

(** X17: the scene rotation step does not ask for an armature.  When the
    configured object is missing or is not an armature and the rotation
    step does not raise, [main] returns normally, reports the failure of
    the pose step, and leaves the scene objects as the rotation step left
    them: an object of another type has been rotated. *)
Theorem main_rotates_without_armature pose_data w :
  objects w !! ARMATURE_NAME = None ∨
    (∃ obj, objects w !! ARMATURE_NAME = Some obj ∧ type obj ≠ "ARMATURE") →
  (apply_scene_rotation pose_data w).1 = Ok tt →
  let out := main (Ok pose_data) w in
  out.1 = Ok tt ∧
  objects out.2 = objects (apply_scene_rotation pose_data w).2 ∧
  ErrFailed ∈ stdout out.2.
Proof.
  intros Hrig Hrot out. unfold out. clear out. rewrite main_by_cases.
  set (w0 := printed_lines _ w).
  destruct (scene_rotation_same_objects pose_data w w0
              (objects_printed_lines _ w)) as [Hres Hscene].
  rewrite Hrot in Hres.
  destruct (apply_scene_rotation pose_data w0) as [[[]|e] w1];
    cbn [fst snd] in *; [|done].
  assert (∃ m, apply_vrm_pose_to_armature ARMATURE_NAME pose_data
                 (printed (InfoApplyingPose ARMATURE_NAME) w1)
               = (Ok false, printed m (printed (InfoApplyingPose ARMATURE_NAME) w1)))
    as [m ->].
  { pose proof (scene_rotation_keeps_types pose_data w ARMATURE_NAME)
      as Htypes.
    rewrite <- Hscene in Htypes.
    destruct Hrig as [Hnone|(obj & Hobj & Htype)]; rewrite ?Hnone, ?Hobj in Htypes.
    - eexists. apply apply_armature_not_found. simpl.
      by destruct (objects w1 !! ARMATURE_NAME).
    - destruct (objects w1 !! ARMATURE_NAME) as [obj1|] eqn:Hobj1; [|done].
      eexists. apply (apply_not_an_armature _ _ _ obj1); [done|].
      simpl in Htypes. congruence. }
  cbn [fst snd]. split_and!; [done|by rewrite objects_printed_lines|].
  simpl. rewrite !elem_of_app, !list_elem_of_singleton. auto 10.
Qed.

(** * Worked examples for the further properties *)

Lemma loop_counts_bounded_witness :
  0 ≤ 2 ∧ 0 ≤ 1 ∧ (2 - 0) + (1 - 0) ≤ length sample_entries.
Proof.
  apply (loop_counts_bounded "Armature" sample_entries 0 0 sample_world 2 1).
  vm_compute; reflexivity.
Defined.

Lemma untargeted_bone_keeps_rotation_witness :
  bone_lookup
    (apply_vrm_pose_to_armature "Armature" hips_only_pose sample_world).2
    "Armature" "Spine"
  = Some (mkPoseBone identity_quaternion).
Proof.
  rewrite (untargeted_bone_keeps_rotation "Armature" hips_only_pose
             sample_world "Spine").
  - vm_compute; reflexivity.
  - intros entries k d [= <-] Hin.
    apply list_elem_of_singleton in Hin as [= -> ->]. discriminate.
Defined.

Lemma apply_true_summary_witness :
  view_updates
    (apply_vrm_pose_to_armature "Armature" sample_pose sample_world).2 = 1.
Proof.
  apply (apply_true_summary "Armature" sample_pose sample_world
           (apply_vrm_pose_to_armature "Armature" sample_pose sample_world).2).
  vm_compute; reflexivity.
Defined.

Lemma apply_false_writes_nothing_witness :
  objects (apply_vrm_pose_to_armature "Armature" sample_pose mesh_world).2
  = objects mesh_world.
Proof.
  apply (apply_false_writes_nothing "Armature" sample_pose mesh_world
           (apply_vrm_pose_to_armature "Armature" sample_pose mesh_world).2).
  vm_compute; reflexivity.
Defined.

Lemma empty_pose_section_is_missing_witness :
  apply_vrm_pose_to_armature "Armature" empty_section_pose sample_world
  = (Ok false,
     printed ErrNoVrmPose (in_mode "POSE" (activated "Armature" sample_world))).
Proof.
  apply (empty_pose_section_is_missing "Armature" empty_section_pose
           sample_world sample_rig (PyDict [])).
  - vm_compute; reflexivity.
  - reflexivity.
  - reflexivity.
  - reflexivity.
Defined.

Lemma non_object_pose_section_raises_witness :
  apply_vrm_pose_to_armature "Armature" array_section_pose sample_world
  = (Raise AttributeError, in_mode "POSE" (activated "Armature" sample_world)).
Proof.
  apply (non_object_pose_section_raises "Armature" array_section_pose
           sample_world sample_rig (PyList [half_turn_about_x])).
  - vm_compute; reflexivity.
  - reflexivity.
  - reflexivity.
  - reflexivity.
  - discriminate.
Defined.

Lemma scene_rotation_raise_leaves_world_witness :
  (apply_scene_rotation worded_rotation_pose turned_world).2 = turned_world.
Proof.
  apply (scene_rotation_raise_leaves_world worded_rotation_pose turned_world
           TypeError).
  vm_compute; reflexivity.
Defined.

Lemma scene_rotation_without_axes_resets_witness :
  rotation_euler <$>
    objects (apply_scene_rotation axisless_rotation_pose turned_world).2
      !! ARMATURE_NAME
  = Some (mkEuler 0 0 0 "XYZ").
Proof.
  rewrite (scene_rotation_without_axes_resets axisless_rotation_pose
             [("w", PyInt 1)] turned_world
             (mkObject "ARMATURE" (mkEuler 1 2 3 "XYZ")
                {["Hips" := mkPoseBone (mkQuaternion 0 0 1 0)]}));
    try reflexivity; try discriminate.
Defined.

Lemma apply_twice_same_scene_witness :
  objects
    (apply_vrm_pose_to_armature "Armature" sample_pose
       (apply_vrm_pose_to_armature "Armature" sample_pose sample_world).2).2
  = objects (apply_vrm_pose_to_armature "Armature" sample_pose sample_world).2.
Proof.
  apply (apply_twice_same_scene "Armature" sample_pose sample_world).
  intros entries [= <-]. apply (bool_decide_unpack _). vm_compute; reflexivity.
Defined.

Lemma entry_order_irrelevant_witness :
  (apply_vrm_pose_to_armature "Armature" reversed_pose sample_world).1 = Ok true ∧
  objects (apply_vrm_pose_to_armature "Armature" reversed_pose sample_world).2
  = objects (apply_vrm_pose_to_armature "Armature" sample_pose sample_world).2.
Proof.
  destruct (entry_order_irrelevant "Armature" sample_pose reversed_pose
              sample_world sample_entries (reverse sample_entries))
    as (Hres & Hscene & _).
  - reflexivity.
  - reflexivity.
  - apply Permutation_sym, reverse_Permutation.
  - apply (bool_decide_unpack _). vm_compute; reflexivity.
  - vm_compute; reflexivity.
  - by split.
Defined.

Lemma main_non_object_document_raises_witness :
  (main (Ok (PyList [])) sample_world).1 = Raise AttributeError.
Proof.
  rewrite (main_non_object_document_raises (PyList []) sample_world);
    [reflexivity | discriminate].
Defined.

Lemma main_rotates_without_armature_witness :
  (main (Ok sample_pose) mesh_world).1 = Ok tt ∧
  rotation_euler <$> objects (main (Ok sample_pose) mesh_world).2 !! "Armature"
  = Some (mkEuler (pi / 2) 0 0 "XYZ").
Proof.
  destruct (main_rotates_without_armature sample_pose mesh_world)
    as (Hres & Hscene & _).
  - right. exists (mkObject "MESH" (mkEuler 0 0 0 "XYZ") ∅).
    split; [vm_compute; reflexivity | discriminate].
  - vm_compute; reflexivity.
  - split; [exact Hres|]. rewrite Hscene. vm_compute; reflexivity.
Defined.

(** * Further properties of the table and of whole documents *)

Lemma bone_map_Forall (P : string * string → Prop) k b :
  Forall P VRM_TO_BLENDER_BONES →
  dict_get VRM_TO_BLENDER_BONES k = Some b → P (k, b).
Proof.
  intros Hall Hk%dict_get_elem_of.
  by apply (proj1 (Forall_forall _ _) Hall (k, b)).
Qed.

(** X18: the table follows one naming rule: the rig name of a canonical
    name is that name with its first letter in upper case. *)
Theorem bone_map_capitalizes k b :
  dict_get VRM_TO_BLENDER_BONES k = Some b → b = capitalize k.
Proof.
  apply (bone_map_Forall (λ kb, kb.2 = capitalize kb.1)).
  apply (bool_decide_unpack _). by vm_compute.
Qed.

(** X19: no rig name of the table is itself a canonical name: a document
    that names a bone the way the rig does gets no mapping for it. *)
Theorem bone_map_rejects_rig_names k b :
  dict_get VRM_TO_BLENDER_BONES k = Some b →
  dict_get VRM_TO_BLENDER_BONES b = None.
Proof.
  apply (bone_map_Forall (λ kb, dict_get VRM_TO_BLENDER_BONES kb.2 = None)).
  apply (bool_decide_unpack _). by vm_compute.
Qed.

Lemma entry_verdict_well_formed w name k d b jx jy jz jw x y z qw_ :
  dict_get VRM_TO_BLENDER_BONES k = Some b →
  is_Some (bone_lookup w name b) →
  py_get d "rotation" PyNone = Ok (PyList [jx; jy; jz; jw]) →
  as_double jx = Ok x → as_double jy = Ok y →
  as_double jz = Ok z → as_double jw = Ok qw_ →
  entry_verdict w name k d = Written b (mkQuaternion qw_ x y z).
Proof.
  intros Hk [pb Hb] Hr Hx Hy Hz Hw. unfold entry_verdict. rewrite Hk.
  rewrite (proj2 (String.eqb_neq _ _) (bone_map_target_nonempty _ _ Hk)), Hb.
  unfold rotation_verdict. rewrite Hr. simpl.
  unfold make_Quaternion. by rewrite Hw, Hx, Hy, Hz.
Qed.

(** An entry is well formed for a world when the loop body would write it. *)
Lemma pose_loop_all_written name entries w0 :
  (∀ k d, (k, d) ∈ entries → ∃ b quat, entry_verdict w0 name k d = Written b quat) →
  ∀ a s w, rotations_only name w0 w →
    ∃ w', pose_loop name entries a s w = (Ok (a + length entries, s), w') ∧
          stdout w' = stdout w.
Proof.
  induction entries as [|[k d] rest IH]; intros Hall a s w Hframe.
  { exists w. split; [|done]. cbn [pose_loop length]. unfold ret.
    by rewrite Nat.add_0_r. }
  destruct (Hall k d ltac:(left)) as (b & quat & Hv).
  rewrite pose_loop_cons_verdict, (entry_verdict_stable name w0 w), Hv by done.
  destruct (IH (λ k' d' Hin, Hall k' d' (list_elem_of_further _ _ _ Hin))
              (S a) s
              (with_objects (alter (with_bone b quat) name (objects w)) w))
    as (w' & -> & Hout).
  { eapply rotations_only_trans; [done|]. apply rotations_only_written.
    apply (rotations_only_presence name w0 w name b Hframe).
    by apply entry_verdict_written in Hv as [_ ?]. }
  exists w'. split; [|done]. cbn [length]. by rewrite Nat.add_succ_r.
Qed.

(** X20: a document all of whose entries are well formed (known name, bone
    in the rig, rotation of four numbers) is applied in full: the call
    returns [True], prints no warning, and reports every entry as applied
    and none as skipped. *)
Theorem well_formed_pose_fully_applied name pose_data w obj entries :
  objects w !! name = Some obj →
  type obj = "ARMATURE" →
  py_get pose_data "vrmPose" (PyDict []) = Ok (PyDict entries) →
  entries ≠ [] →
  (∀ k d, (k, d) ∈ entries →
     ∃ b jx jy jz jw x y z qw_,
       dict_get VRM_TO_BLENDER_BONES k = Some b ∧
       is_Some (bones obj !! b) ∧
       py_get d "rotation" PyNone = Ok (PyList [jx; jy; jz; jw]) ∧
       as_double jx = Ok x ∧ as_double jy = Ok y ∧
       as_double jz = Ok z ∧ as_double jw = Ok qw_) →
  let out := apply_vrm_pose_to_armature name pose_data w in
  out.1 = Ok true ∧
  stdout out.2
  = stdout w ++ [InfoApplied (length entries); InfoSkipped 0].
Proof.
  intros Hobj Htype Hget Hne Hall out. unfold out. clear out.
  rewrite (apply_armature_found _ _ _ obj), Hget by done.
  replace (truthy (PyDict entries)) with true by (by destruct entries).
  cbn [py_items]. set (w0 := in_mode "POSE" (activated name w)).
  destruct (pose_loop_all_written name entries w0) with (a := 0) (s := 0) (w := w0)
    as (w' & -> & Hout); [|apply rotations_only_refl|].
  { intros k d Hin.
    destruct (Hall k d Hin)
      as (b & jx & jy & jz & jw & x & y & z & qw_ & Hk & Hb & Hr & Hx & Hy & Hz & Hw).
    exists b, (mkQuaternion qw_ x y z).
    apply (entry_verdict_well_formed _ _ _ _ _ jx jy jz jw); try done.
    unfold bone_lookup, w0. simpl. by rewrite Hobj. }
  split; [done|]. simpl. rewrite Hout. by rewrite <- app_assoc.
Qed.

Lemma stdout_printed_lines ms w : stdout (printed_lines ms w) = stdout w ++ ms.
Proof.
  revert w. induction ms as [|m ms IH]; intros w; simpl.
  - by rewrite app_nil_r.
  - rewrite (IH (printed m w)). simpl. by rewrite <- app_assoc.
Qed.

Lemma pose_loop_all_unmapped name entries a s w :
  (∀ k d, (k, d) ∈ entries → dict_get VRM_TO_BLENDER_BONES k = None) →
  pose_loop name entries a s w
  = (Ok (a, s + length entries),
     printed_lines (WarnNoMapping <$> entries.*1) w).
Proof.
  revert s w. induction entries as [|[k d] rest IH]; intros s w Hall.
  { cbn [pose_loop length]. unfold ret. by rewrite Nat.add_0_r. }
  rewrite pose_loop_cons, pose_entry_unmapped by (apply (Hall k d); left).
  cbn [fst snd]. rewrite IH.
  - cbn [length fmap list_fmap fst printed_lines foldl].
    by rewrite Nat.add_succ_r.
  - intros k' d' Hin. apply (Hall k' d'). by right.
Qed.

(** X21: a document none of whose names is in the table still makes the
    call return [True]: every entry is warned about and counted as skipped,
    zero bones are reported applied, and the scene objects are as before. *)
Theorem unknown_names_only_still_succeeds name pose_data w obj entries :
  objects w !! name = Some obj →
  type obj = "ARMATURE" →
  py_get pose_data "vrmPose" (PyDict []) = Ok (PyDict entries) →
  entries ≠ [] →
  (∀ k d, (k, d) ∈ entries → dict_get VRM_TO_BLENDER_BONES k = None) →
  let out := apply_vrm_pose_to_armature name pose_data w in
  out.1 = Ok true ∧
  objects out.2 = objects w ∧
  stdout out.2
  = stdout w ++ (WarnNoMapping <$> entries.*1)
      ++ [InfoApplied 0; InfoSkipped (length entries)].
Proof.
  intros Hobj Htype Hget Hne Hall out. unfold out. clear out.
  rewrite (apply_armature_found _ _ _ obj), Hget by done.
  replace (truthy (PyDict entries)) with true by (by destruct entries).
  cbn [py_items]. rewrite pose_loop_all_unmapped by done.
  cbn [fst snd]. split_and!; [done| |].
  - simpl. by rewrite objects_printed_lines.
  - simpl. rewrite stdout_printed_lines. simpl. by rewrite <- !app_assoc.
Qed.

(** X22: there is no rollback.  When an entry with a known name and a bone
    in the rig is not an object (say the bare array of four numbers), the
    call raises [AttributeError] at that entry: what the entries before it
    wrote stays written, the entries after it are never looked at, no
    summary is printed and the view is not refreshed. *)
Theorem non_object_entry_aborts_run name pose_data w obj pre k d post b counts :
  let w0 := in_mode "POSE" (activated name w) in
  objects w !! name = Some obj →
  type obj = "ARMATURE" →
  py_get pose_data "vrmPose" (PyDict []) = Ok (PyDict (pre ++ (k, d) :: post)) →
  (pose_loop name pre 0 0 w0).1 = Ok counts →
  dict_get VRM_TO_BLENDER_BONES k = Some b →
  is_Some (bones obj !! b) →
  (∀ items, d ≠ PyDict items) →
  apply_vrm_pose_to_armature name pose_data w
  = (Raise AttributeError, (pose_loop name pre 0 0 w0).2).
Proof.
  intros w0 Hobj Htype Hget Hpre Hk Hb Hshape.
  rewrite (apply_armature_found _ _ _ obj), Hget by done.
  replace (truthy (PyDict (pre ++ (k, d) :: post))) with true
    by (by destruct pre).
  cbn [py_items]. fold w0. rewrite pose_loop_app.
  pose proof (pose_loop_rotations_only name pre 0 0 w0) as Hframe.
  destruct (pose_loop name pre 0 0 w0) as [[c|e] w1]; [|done].
  cbn [fst snd] in *.
  rewrite pose_loop_cons_verdict, (entry_verdict_stable name w0 w1) by done.
  unfold entry_verdict. rewrite Hk.
  rewrite (proj2 (String.eqb_neq _ _) (bone_map_target_nonempty _ _ Hk)).
  replace (bone_lookup w0 name b) with (bones obj !! b)
    by (unfold bone_lookup, w0; simpl; by rewrite Hobj).
  destruct Hb as [pb ->]. unfold rotation_verdict.
  destruct d; try done. by destruct (Hshape items).
Qed.

Lemma bone_map_capitalizes_witness : "LeftHand" = capitalize "leftHand".
Proof. apply (bone_map_capitalizes "leftHand" "LeftHand"). reflexivity. Defined.

Lemma bone_map_rejects_rig_names_witness :
  dict_get VRM_TO_BLENDER_BONES "LeftHand" = None.
Proof.
  apply (bone_map_rejects_rig_names "leftHand" "LeftHand"). reflexivity.
Defined.

Lemma well_formed_pose_fully_applied_witness :
  (apply_vrm_pose_to_armature "Armature" two_bone_pose sample_world).1 = Ok true ∧
  stdout (apply_vrm_pose_to_armature "Armature" two_bone_pose sample_world).2
  = [InfoApplied 2; InfoSkipped 0].
Proof.
  apply (well_formed_pose_fully_applied "Armature" two_bone_pose sample_world
           sample_rig
           [("hips", half_turn_about_x); ("spine", rotation_at_rest)]).
  - vm_compute; reflexivity.
  - reflexivity.
  - reflexivity.
  - discriminate.
  - intros k d Hin.
    apply elem_of_cons in Hin as [[= -> ->]|Hin];
      [|apply list_elem_of_singleton in Hin as [= -> ->]].
    + exists "Hips", (PyFloat 1), (PyFloat 0), (PyFloat 0), (PyFloat 0),
        1%float, 0%float, 0%float, 0%float.
      split_and!; try reflexivity.
      exists (mkPoseBone identity_quaternion). vm_compute; reflexivity.
    + exists "Spine", (PyInt 0), (PyInt 0), (PyInt 0), (PyInt 1),
        0%float, 0%float, 0%float, 1%float.
      split_and!; try reflexivity.
      exists (mkPoseBone identity_quaternion). vm_compute; reflexivity.
Defined.

Lemma unknown_names_only_still_succeeds_witness :
  (apply_vrm_pose_to_armature "Armature" rig_named_pose sample_world).1 = Ok true ∧
  objects (apply_vrm_pose_to_armature "Armature" rig_named_pose sample_world).2
  = objects sample_world ∧
  stdout (apply_vrm_pose_to_armature "Armature" rig_named_pose sample_world).2
  = [WarnNoMapping "Hips"; WarnNoMapping "Spine"; InfoApplied 0; InfoSkipped 2].
Proof.
  apply (unknown_names_only_still_succeeds "Armature" rig_named_pose
           sample_world sample_rig rig_named_entries).
  - vm_compute; reflexivity.
  - reflexivity.
  - reflexivity.
  - discriminate.
  - intros k d Hin.
    apply elem_of_cons in Hin as [[= -> ->]|Hin];
      [|apply list_elem_of_singleton in Hin as [= -> ->]]; reflexivity.
Defined.

Lemma non_object_entry_aborts_run_witness :
  apply_vrm_pose_to_armature "Armature" bare_pose sample_world
  = (Raise AttributeError,
     (pose_loop "Armature" [("hips", half_turn_about_x)] 0 0
        (in_mode "POSE" (activated "Armature" sample_world))).2).
Proof.
  apply (non_object_entry_aborts_run "Armature" bare_pose sample_world
           sample_rig [("hips", half_turn_about_x)] "spine"
           (PyList [PyInt 0; PyInt 0; PyInt 0; PyInt 1])
           [("head", half_turn_about_x)] "Spine" (1, 0)).
  - vm_compute; reflexivity.
  - reflexivity.
  - reflexivity.
  - vm_compute; reflexivity.
  - reflexivity.
  - exists (mkPoseBone identity_quaternion). vm_compute; reflexivity.
  - discriminate.
Defined.
